(** * TruthSense AI: the rule-based headline detector

    A shallow embedding of [backend/fakeNewsDetector.ts] (the weighted,
    fully deterministic revision) and of the random baseline it replaced,
    with the properties its documentation states; then the two earlier
    rule-based revisions and the headline logger of [logServer.ts].

    JavaScript strings are sequences of UTF-16 code units; a headline is
    modelled as the list of its code units.  Scores and confidences are
    integer-valued doubles far below 2^53 and are modelled in [Z]. *)

From Stdlib Require Import List Bool ZArith NArith Lia String Ascii.
From Stdlib Require Import DecimalString.
From Stdlib Require Import Floats.PrimFloat Floats.SpecFloat Floats.FloatOps.
Import ListNotations.
Open Scope Z_scope.


(* ================================================================== *)
(** ** Strings as the runtime has them *)

Module JSString.

Definition codeunit := N.
Definition jsstring := list codeunit.

(** A string literal of the source text; every literal of the detector
    is plain ASCII, so a literal's code units are its bytes. *)
Definition lit (s : string) : jsstring :=
  map N_of_ascii (list_ascii_of_string s).

(** [a === b] on strings. *)
Fixpoint strictEq (a b : jsstring) : bool :=
  match a, b with
  | [], [] => true
  | x :: a', y :: b' => N.eqb x y && strictEq a' b'
  | _, _ => false
  end.

(** ECMAScript WhiteSpace and LineTerminator code points: the set that
    [String.prototype.trim] strips and that the regexp class [\s] matches. *)
Definition isWhiteSpace (c : codeunit) : bool :=
  (N.leb 9 c && N.leb c 13)            (* TAB LF VT FF CR *)
  || N.eqb c 32                        (* SPACE *)
  || N.eqb c 160                       (* NBSP *)
  || N.eqb c 5760                      (* U+1680 *)
  || (N.leb 8192 c && N.leb c 8202)    (* U+2000 .. U+200A *)
  || N.eqb c 8232 || N.eqb c 8233      (* LS PS *)
  || N.eqb c 8239                      (* U+202F *)
  || N.eqb c 8287                      (* U+205F *)
  || N.eqb c 12288                     (* U+3000 *)
  || N.eqb c 65279.                    (* U+FEFF *)

Fixpoint dropWhile (p : codeunit -> bool) (s : jsstring) : jsstring :=
  match s with
  | [] => []
  | c :: s' => if p c then dropWhile p s' else s
  end.

Definition trimStart (s : jsstring) : jsstring := dropWhile isWhiteSpace s.
Definition trimEnd (s : jsstring) : jsstring := rev (dropWhile isWhiteSpace (rev s)).

(** [s.trim()] *)
Definition trim (s : jsstring) : jsstring := trimEnd (trimStart s).

(** [!s] for a string: only the empty string is falsy. *)
Definition isFalsy (s : jsstring) : bool :=
  match s with [] => true | _ :: _ => false end.

(** [text.startsWith(item)], the matcher [includes] tries at each index. *)
Fixpoint startsWith (text item : jsstring) {struct item} : bool :=
  match item, text with
  | [], _ => true
  | _ :: _, [] => false
  | i :: item', t :: text' => N.eqb t i && startsWith text' item'
  end.

(** [text.includes(item)] *)
Fixpoint includes (text item : jsstring) : bool :=
  startsWith text item ||
  match text with
  | [] => false
  | _ :: text' => includes text' item
  end.

(** [s.split(/\s+/)]: the pieces between maximal runs of white space.
    [inSep] says that the previous code unit belonged to a separator,
    [cur] holds the piece being read, reversed.  A separator at the very
    start or end leaves an empty piece there, and the empty string splits
    into one empty piece, as in ECMAScript. *)
Fixpoint splitFrom (inSep : bool) (cur : jsstring) (s : jsstring) : list jsstring :=
  match s with
  | [] => [rev cur]
  | c :: rest =>
      if isWhiteSpace c then
        if inSep then splitFrom true cur rest
        else rev cur :: splitFrom true [] rest
      else splitFrom false (c :: cur) rest
  end.

Definition splitWhitespace (s : jsstring) : list jsstring := splitFrom false [] s.

(** [(s.match(/!/g) || []).length]: the number of [!] code units. *)
Definition countMatches (c : codeunit) (s : jsstring) : Z :=
  Z.of_nat (List.length (filter (N.eqb c) s)).

(** [arr.join(sep)] *)
Fixpoint join (sep : jsstring) (arr : list jsstring) : jsstring :=
  match arr with
  | [] => []
  | [x] => x
  | x :: rest => x ++ sep ++ join sep rest
  end.

(** ASCII letters, the only code units whose case the phrase tables use. *)
Definition isAscii (c : codeunit) : bool := N.ltb c 128.
Definition isAsciiString (s : jsstring) : bool := forallb isAscii s.

Definition asciiLower (c : codeunit) : codeunit :=
  if N.leb 65 c && N.leb c 90 then (c + 32)%N else c.
Definition asciiUpper (c : codeunit) : codeunit :=
  if N.leb 97 c && N.leb c 122 then (c - 32)%N else c.

(** [toLowerCase] and [toUpperCase] belong to the runtime and follow the
    Unicode case tables.  The detector is verified against any conversion
    that acts on ASCII-only strings the way Unicode does: letter by letter,
    leaving every other ASCII code unit alone. *)
Class CaseConversion : Type := {
  toLowerCase : jsstring -> jsstring;
  toUpperCase : jsstring -> jsstring;
  toLowerCase_ascii :
    forall s, isAsciiString s = true -> toLowerCase s = map asciiLower s;
  toUpperCase_ascii :
    forall s, isAsciiString s = true -> toUpperCase s = map asciiUpper s
}.

(** The conversion that touches ASCII letters only. *)
#[refine] Instance asciiCase : CaseConversion := {
  toLowerCase := map asciiLower;
  toUpperCase := map asciiUpper
}.
Proof. all: reflexivity. Defined.

End JSString.
Import JSString.

(* ================================================================== *)
(** ** Numbers *)

(** [Math.round x] is [floor (x + 1/2)]; on an integer [x] that is
    [(2x + 1) div 2]. *)
Definition Math_round (x : Z) : Z := (2 * x + 1) / 2.
Definition Math_min (a b : Z) : Z := Z.min a b.
Definition Math_abs (a : Z) : Z := Z.abs a.

(* ================================================================== *)
(** ** The detector's types *)

Inductive HeadlineLabel : Type := fake | trustworthy.

Record DetectionResult : Type := {
  label : HeadlineLabel;
  confidence : Z;
  explanation : jsstring
}.

(** The three locals the scoring section mutates. *)
Record ScoreState : Type := {
  fakeScore : Z;
  trustScore : Z;
  reasons : list jsstring
}.

(* ================================================================== *)
(** ** The rule tables *)

Definition impossibleClaims : list jsstring := map lit [
  "immortal"; "immortality"; "live forever"; "cure cancer";
  "cures all diseases"; "time travel"; "teleportation"; "reverse aging";
  "resurrect"; "brings dead back"; "weather control"; "invincible" ]%string.

Definition strongClickbait : list jsstring := map lit [
  "you won't believe"; "shocking"; "explosive"; "mind-blowing";
  "unbelievable"; "this will change your life"; "goes viral";
  "secret method"; "top secret"; "hidden truth"; "what happens next" ]%string.

Definition sensationalWords : list jsstring := map lit [
  "miracle"; "outrageous"; "insane"; "jaw-dropping"; "scandal"; "exposed";
  "insider reveals" ]%string.

Definition absoluteLanguage : list jsstring := map lit [
  "never"; "always"; "everyone"; "no one"; "proves once and for all" ]%string.

Definition trustworthyCues : list jsstring := map lit [
  "study"; "research"; "according to"; "report"; "analysis"; "university";
  "scientists at"; "researchers at"; "published in"; "official data";
  "peer-reviewed"; "in a journal" ]%string.

(** The sentence each rule pushes onto [reasons]. *)
Definition impossibleReason : jsstring :=
  lit "Mentions impossible or pseudoscientific claims.".
Definition clickbaitReason : jsstring :=
  lit "Uses strong clickbait language associated with fake headlines.".
Definition sensationalReason : jsstring :=
  lit "Contains sensational or emotionally-loaded words.".
Definition absoluteReason : jsstring :=
  lit "Uses absolute language often seen in misleading content.".
Definition multipleExclamationsReason : jsstring :=
  lit "Contains multiple exclamation marks, indicating exaggeration.".
Definition oneExclamationReason : jsstring :=
  lit "Contains an exclamation mark, a common indicator of strong sensationalism.".
Definition allCapsReason : jsstring :=
  lit "Contains multiple ALL-CAPS words used to grab attention.".
Definition trustReason : jsstring :=
  lit "References research, data, universities, or official sources.".
Definition neutralExplanation : jsstring :=
  lit "The headline appears neutral and does not match common patterns of misleading or sensational content.".
Definition noHeadlineExplanation : jsstring :=
  lit "No headline text was provided.".

(** [containsAny(text, arr)]: [arr.some((item) => text.includes(item))]. *)
Definition containsAny (text : jsstring) (arr : list jsstring) : bool :=
  existsb (fun item => includes text item) arr.

(* ================================================================== *)
(** ** Scoring *)

(** [fakeScore += n], [trustScore += n] and [reasons.push(r)]. *)
Definition addFake (n : Z) (st : ScoreState) : ScoreState :=
  {| fakeScore := fakeScore st + n; trustScore := trustScore st; reasons := reasons st |}.
Definition addTrust (n : Z) (st : ScoreState) : ScoreState :=
  {| fakeScore := fakeScore st; trustScore := trustScore st + n; reasons := reasons st |}.
Definition push (r : jsstring) (st : ScoreState) : ScoreState :=
  {| fakeScore := fakeScore st; trustScore := trustScore st; reasons := reasons st ++ [r] |}.

Definition initialState : ScoreState :=
  {| fakeScore := 0; trustScore := 0; reasons := [] |}.

(** The four fake-leaning phrase rules, each one [if] of the source. *)
Definition impossibleRule (lower : jsstring) (st : ScoreState) : ScoreState :=
  if containsAny lower impossibleClaims
  then push impossibleReason (addFake 5 st) else st.

Definition clickbaitRule (lower : jsstring) (st : ScoreState) : ScoreState :=
  if containsAny lower strongClickbait
  then push clickbaitReason (addFake 4 st) else st.

Definition sensationalRule (lower : jsstring) (st : ScoreState) : ScoreState :=
  if containsAny lower sensationalWords
  then push sensationalReason (addFake 3 st) else st.

Definition absoluteRule (lower : jsstring) (st : ScoreState) : ScoreState :=
  if containsAny lower absoluteLanguage
  then push absoluteReason (addFake 2 st) else st.

(** Excessive punctuation. *)
Definition exclamations (original : jsstring) : Z := countMatches 33%N original.

Definition punctuationRule (original : jsstring) (st : ScoreState) : ScoreState :=
  if (2 <=? exclamations original)%Z
  then push multipleExclamationsReason (addFake 3 st)
  else if (exclamations original =? 1)%Z
  then push oneExclamationReason (addFake 1 st)
  else st.

(** Trust indicators. *)
Definition trustRule (lower : jsstring) (st : ScoreState) : ScoreState :=
  if containsAny lower trustworthyCues
  then push trustReason (addTrust 4 st) else st.

(** Length analysis: two independent [if]s, neither pushes a reason. *)
Definition lengthRule (words : list jsstring) (st : ScoreState) : ScoreState :=
  let st := if (14 <? Z.of_nat (List.length words))%Z then addTrust 1 st else st in
  if (Z.of_nat (List.length words) <? 5)%Z then addFake 1 st else st.

(** Final label decision and the returned object. *)
Definition finalScore (st : ScoreState) : Z := fakeScore st - trustScore st.

Definition decide (st : ScoreState) : HeadlineLabel * Z :=
  if (3 <=? finalScore st)%Z then
    (fake, 85 + Math_min (fakeScore st * 2) 10)%Z
  else if (finalScore st <=? -2)%Z then
    (trustworthy, 80 + Math_min (trustScore st * 2) 15)%Z
  else
    (if (0 <? finalScore st)%Z then fake else trustworthy,
     70 + Math_abs (finalScore st) * 5)%Z.

Definition explain (st : ScoreState) : jsstring :=
  if (0 <? Z.of_nat (List.length (reasons st)))%Z
  then join (lit " ") (reasons st)
  else neutralExplanation.

Definition result (st : ScoreState) : DetectionResult :=
  let '(lbl, conf) := decide st in
  {| label := lbl;
     confidence := Math_min 95 (Math_round conf);
     explanation := explain st |}.

Definition noHeadline : DetectionResult :=
  {| label := fake; confidence := 0; explanation := noHeadlineExplanation |}.

Section Detector.

Context {runtime : CaseConversion}.

(** [words.filter((w) => w.length >= 4 && w === w.toUpperCase())] *)
Definition allCaps (words : list jsstring) : list jsstring :=
  filter (fun w => (4 <=? Z.of_nat (List.length w))%Z && strictEq w (toUpperCase w)) words.

Definition allCapsRule (words : list jsstring) (st : ScoreState) : ScoreState :=
  if (2 <=? Z.of_nat (List.length (allCaps words)))%Z
  then push allCapsReason (addFake 3 st) else st.

(** The scoring section, rule after rule in source order. *)
Definition scoring (original lower : jsstring) : ScoreState :=
  let st := initialState in
  let st := impossibleRule lower st in
  let st := clickbaitRule lower st in
  let st := sensationalRule lower st in
  let st := absoluteRule lower st in
  let st := punctuationRule original st in
  let words := splitWhitespace original in
  let st := allCapsRule words st in
  let st := trustRule lower st in
  lengthRule words st.

(** [detectHeadline(headline)] *)
Definition detectHeadline (headline : jsstring) : DetectionResult :=
  let original := trim headline in
  let lower := toLowerCase original in
  if isFalsy original then noHeadline
  else result (scoring original lower).

End Detector.

(* ================================================================== *)
(** ** Ambient effects and the storage of locals

    What a function body can read and write besides its argument: the
    generator behind [Math.random], the clock, and the cells its own locals
    live in.  A call starts on the cells as the previous call left them; a
    declaration with an initialiser is a write to its cell. *)

Module Effects.

Record World : Type := {
  randomDraws : nat -> float;   (* the doubles [Math.random] will hand out *)
  drawn : nat;                  (* how many were handed out so far *)
  clock : Z
}.

Record Machine : Type := {
  ambient : World;
  frame : ScoreState            (* the cells of [fakeScore], [trustScore], [reasons] *)
}.

Definition JS (A : Type) : Type := Machine -> A * Machine.

Definition ret {A : Type} (a : A) : JS A := fun m => (a, m).

Definition bind {A B : Type} (c : JS A) (k : A -> JS B) : JS B :=
  fun m => let '(a, m') := c m in k a m'.

Definition Math_random : JS float :=
  fun m =>
    let w := ambient m in
    (randomDraws w (drawn w),
     {| ambient := {| randomDraws := randomDraws w; drawn := S (drawn w); clock := clock w |};
        frame := frame m |}).

(** Reads and writes of the three locals. *)
Definition getFakeScore : JS Z := fun m => (fakeScore (frame m), m).
Definition getTrustScore : JS Z := fun m => (trustScore (frame m), m).
Definition getReasons : JS (list jsstring) := fun m => (reasons (frame m), m).

Definition setFakeScore (n : Z) : JS unit :=
  fun m => (tt, {| ambient := ambient m;
                   frame := {| fakeScore := n; trustScore := trustScore (frame m);
                               reasons := reasons (frame m) |} |}).
Definition setTrustScore (n : Z) : JS unit :=
  fun m => (tt, {| ambient := ambient m;
                   frame := {| fakeScore := fakeScore (frame m); trustScore := n;
                               reasons := reasons (frame m) |} |}).
Definition setReasons (rs : list jsstring) : JS unit :=
  fun m => (tt, {| ambient := ambient m;
                   frame := {| fakeScore := fakeScore (frame m);
                               trustScore := trustScore (frame m); reasons := rs |} |}).

Definition valueOf {A : Type} (c : JS A) (m : Machine) : A := fst (c m).
Definition worldAfter {A : Type} (c : JS A) (m : Machine) : World := ambient (snd (c m)).

End Effects.
Import Effects.

Notation "x <- c ;; k" := (bind c (fun x => k))
  (at level 61, c at next level, right associativity).
Notation "c ;; k" := (bind c (fun _ => k))
  (at level 61, right associativity).

(** [fakeScore += n], [trustScore += n], [reasons.push(r)] and an [if]
    without [else], as statements. *)
Definition addToFakeScore (n : Z) : JS unit := v <- getFakeScore ;; setFakeScore (v + n).
Definition addToTrustScore (n : Z) : JS unit := v <- getTrustScore ;; setTrustScore (v + n).
Definition pushReason (r : jsstring) : JS unit := rs <- getReasons ;; setReasons (rs ++ [r]).
Definition when (b : bool) (c : JS unit) : JS unit := if b then c else ret tt.

Section Statements.

Context {runtime : CaseConversion}.

(** The scoring section of [detectHeadline], statement by statement. *)
Definition scoringStatements (original lower : jsstring) : JS unit :=
  setFakeScore 0 ;;
  setTrustScore 0 ;;
  setReasons [] ;;
  when (containsAny lower impossibleClaims)
    (addToFakeScore 5 ;; pushReason impossibleReason) ;;
  when (containsAny lower strongClickbait)
    (addToFakeScore 4 ;; pushReason clickbaitReason) ;;
  when (containsAny lower sensationalWords)
    (addToFakeScore 3 ;; pushReason sensationalReason) ;;
  when (containsAny lower absoluteLanguage)
    (addToFakeScore 2 ;; pushReason absoluteReason) ;;
  let exclamations := countMatches 33%N original in
  (if 2 <=? exclamations then
     addToFakeScore 3 ;; pushReason multipleExclamationsReason
   else if exclamations =? 1 then
     addToFakeScore 1 ;; pushReason oneExclamationReason
   else ret tt) ;;
  let words := splitWhitespace original in
  let allCaps :=
    filter (fun w => (4 <=? Z.of_nat (List.length w)) && strictEq w (toUpperCase w)) words in
  when (2 <=? Z.of_nat (List.length allCaps))
    (addToFakeScore 3 ;; pushReason allCapsReason) ;;
  when (containsAny lower trustworthyCues)
    (addToTrustScore 4 ;; pushReason trustReason) ;;
  when (14 <? Z.of_nat (List.length words)) (addToTrustScore 1) ;;
  when (Z.of_nat (List.length words) <? 5) (addToFakeScore 1).

(** The final label decision and the returned object. *)
Definition decisionStatements : JS DetectionResult :=
  fakeScore <- getFakeScore ;;
  trustScore <- getTrustScore ;;
  let finalScore := fakeScore - trustScore in
  let '(label, confidence) :=
    if 3 <=? finalScore then (fake, 85 + Math_min (fakeScore * 2) 10)
    else if finalScore <=? -2 then (trustworthy, 80 + Math_min (trustScore * 2) 15)
    else (if 0 <? finalScore then fake else trustworthy,
          70 + Math_abs finalScore * 5) in
  reasons <- getReasons ;;
  let explanation :=
    if 0 <? Z.of_nat (List.length reasons)
    then join (lit " ") reasons
    else neutralExplanation in
  ret {| label := label;
         confidence := Math_min 95 (Math_round confidence);
         explanation := explanation |}.

(** A call of the rule-based [detectHeadline]. *)
Definition detectHeadlineCall (headline : jsstring) : JS DetectionResult :=
  let original := trim headline in
  let lower := toLowerCase original in
  if isFalsy original then
    ret {| label := fake; confidence := 0; explanation := noHeadlineExplanation |}
  else
    scoringStatements original lower ;;
    decisionStatements.

End Statements.

(** [Math.floor] of a finite double, as the integer it denotes. *)
Definition Math_floor (x : float) : Z :=
  match Prim2SF x with
  | S754_finite negative mantissa exponent =>
      let m := if negative then Z.neg mantissa else Z.pos mantissa in
      if 0 <=? exponent then m * 2 ^ exponent else m / 2 ^ (- exponent)
  | _ => 0
  end.

(** The baseline of the prototype, which the rule-based detector replaced:
    a random label and a random confidence, in double arithmetic. *)
Definition baselineDetectHeadline (headline : jsstring) : JS DetectionResult :=
  let text := trim headline in
  if isFalsy text then ret noHeadline
  else
    r <- Math_random ;;
    let isFake := PrimFloat.ltb 0.5%float r in
    c <- Math_random ;;
    ret {| label := if isFake then fake else trustworthy;
           confidence := Math_floor (PrimFloat.mul c 20%float) + 75;
           explanation :=
             if isFake
             then lit "This headline uses exaggerated or unlikely claims, matching patterns seen in misleading content."
             else lit "This headline uses neutral language and resembles credible reporting patterns." |}.

(* ================================================================== *)
(** ** The earlier rule-based revisions of [backend/fakeNewsDetector.ts] *)

(** The revision tuned to a list of known fake headlines: a cascade of
    early returns with two fixed confidences. *)
Module Tuned.

Definition knownFakeExact : list jsstring := [
  lit "scientists discover a new mineral that grants immortality to humans";
  lit "coffee proven to let people live forever in shocking new report";
  lit "new study claims humans can now breathe underwater without equipment";
  lit "scientists confirm teleportation technology is ready for public use";
  lit "researchers announce breakthrough pill that makes you age backward";
  lit "scientists say gravity can now be turned off with a portable device";
  lit "time travel officially achieved in top-secret government experiment";
  lit "scientists confirm drinking seawater cures all diseases";
  lit "new vaccine discovered that guarantees 100% immunity to every illness";
  lit "scientists reveal device that allows humans to read minds instantly";
  lit "shocking discovery proves cats can communicate with aliens!";
  lit "this simple fruit will make you invincible, experts say";
  lit "mind-blowing secret method that guarantees instant wealth revealed";
  lit "unbelievable! man claims to have lived 200 years through meditation";
  lit "you won" ++ [8217%N] ++ lit "t believe what scientists found inside a meteorite!";
  lit "miracle plant discovered that cures all known diseases";
  lit "jaw-dropping evidence shows pyramids were built by time travelers";
  lit "explosive new report exposes dark truth behind rainbows";
  lit "this one trick will instantly fix your eyesight forever";
  lit "hidden truth finally revealed: water has memory that controls emotions";
  lit "new research proves once and for all that eating chocolate guarantees weight loss";
  lit "experts confirm everyone who sleeps past 10 am will develop memory loss";
  lit "scientists say no one can ever get sick if they drink lemon water daily";
  lit "this diet will always make you lose 10kg in one week";
  lit "doctors guarantee this breathing technique cures anxiety instantly";
  lit "you won" ++ [8217%N] ++ lit "t believe what this doctor said about bananas!";
  lit "this secret government file changes everything";
  lit "what happens next will shock you beyond belief";
  lit "top secret trick doctors don" ++ [8217%N] ++ lit "t want you to know about";
  lit "this viral method instantly doubles your income!";
  lit "breaking: new miracle drink discovered!!!";
  lit "scientists admit to hiding cure for aging!!!!!!";
  lit "this simple trick will make you smarter instantly!!";
  lit "scientists exposed for hiding alien technology";
  lit "cure for cancer found but big pharma covers it up!";
  lit "government hiding the truth about teleportation!";
  lit "moon landing proven fake by leaked alien documents";
  lit "secret island discovered where dinosaurs still live";
  lit "experts confirm world will end next month due to planetary misalignment";
  lit "new evidence proves birds are actually government drones" ].

Definition impossiblePatterns : list jsstring := [
  lit "immortal";
  lit "live forever";
  lit "teleportation";
  lit "time travel";
  lit "age backward";
  lit "breathe underwater";
  lit "100% immunity";
  lit "invincible";
  lit "read minds";
  lit "cure cancer";
  lit "cures all diseases";
  lit "reverse aging";
  lit "aliens";
  lit "dinosaurs still live";
  lit "end next month";
  lit "everyone will";
  lit "no one will" ].

Definition clickbaitPatterns : list jsstring := [
  lit "you won" ++ [8217%N] ++ lit "t believe";
  lit "unbelievable";
  lit "shocking";
  lit "explosive";
  lit "jaw-dropping";
  lit "mind-blowing";
  lit "hidden truth";
  lit "top secret";
  lit "revealed";
  lit "viral method" ].

Definition conspiracyPatterns : list jsstring := [
  lit "government hiding";
  lit "big pharma";
  lit "leaked documents";
  lit "exposed";
  lit "dark truth";
  lit "secret file";
  lit "secret island";
  lit "birds are actually drones" ].

Definition trustworthyCues : list jsstring := [
  lit "study";
  lit "research";
  lit "published in";
  lit "report";
  lit "analysis";
  lit "university";
  lit "according to";
  lit "peer-reviewed";
  lit "scientists at";
  lit "researchers at";
  lit "official data" ].

Section Detector.

Context {runtime : CaseConversion}.

(** [isExcessivelyCapitalized(text)] *)
Definition isExcessivelyCapitalized (text : jsstring) : bool :=
  let words := splitWhitespace text in
  let caps := allCaps words in
  2 <=? Z.of_nat (List.length caps).

Definition fakeTriggers (original lower : jsstring) : bool :=
  containsAny lower impossiblePatterns
  || containsAny lower clickbaitPatterns
  || containsAny lower conspiracyPatterns
  || includes lower (lit "!!!")
  || includes lower (lit "!!!!")
  || isExcessivelyCapitalized original.

(** [detectHeadline(headline)]; [knownFakeExact.includes(lower)] is
    membership by string equality. *)
Definition detectHeadline (headline : jsstring) : DetectionResult :=
  let original := trim headline in
  let lower := toLowerCase original in
  if isFalsy original then
    {| label := fake; confidence := 92;
       explanation := lit "No headline text was provided." |}
  else if existsb (strictEq lower) knownFakeExact then
    {| label := fake; confidence := 92;
       explanation := lit "This headline matches a known list of highly implausible or sensational fake claims." |}
  else if fakeTriggers original lower then
    {| label := fake; confidence := 92;
       explanation := lit "The headline contains patterns typical of fake or sensational news, including impossible claims, exaggeration, or conspiracy-like language." |}
  else if containsAny lower trustworthyCues then
    {| label := trustworthy; confidence := 88;
       explanation := lit "The headline references research, credible institutions, or official reports, which indicates trustworthy reporting." |}
  else
    {| label := trustworthy; confidence := 88;
       explanation := lit "The headline does not match any known patterns of fake or misleading news." |}.

End Detector.

End Tuned.

(** The revision with the same additive scores as the weighted one, no
    length analysis, and four fixed confidences. *)
Module FixedConfidence.

Definition impossibleClaims : list jsstring := [
  lit "immortal";
  lit "immortality";
  lit "live forever";
  lit "time travel";
  lit "teleportation";
  lit "reverse aging";
  lit "invincible";
  lit "cure cancer";
  lit "cures all diseases";
  lit "brings dead back" ].

Definition strongClickbait : list jsstring := [
  lit "you won't believe";
  lit "this will change your life";
  lit "shocking";
  lit "explosive";
  lit "mind-blowing";
  lit "unbelievable";
  lit "goes viral";
  lit "hidden truth";
  lit "top secret" ].

Definition sensationalWords : list jsstring := [
  lit "miracle";
  lit "outrageous";
  lit "insane";
  lit "jaw-dropping";
  lit "scandal";
  lit "exposed" ].

Definition absoluteLanguage : list jsstring := [
  lit "always";
  lit "never";
  lit "everyone";
  lit "no one";
  lit "proves once and for all" ].

Definition trustworthyCues : list jsstring := [
  lit "study";
  lit "research";
  lit "published in";
  lit "university";
  lit "according to";
  lit "scientists at";
  lit "researchers at";
  lit "official data";
  lit "peer-reviewed";
  lit "in a journal" ].

Section Detector.

Context {runtime : CaseConversion}.

Definition scoring (original lower : jsstring) : ScoreState :=
  let st := initialState in
  let st := if containsAny lower impossibleClaims
            then push (lit "The headline includes impossible or pseudoscientific claims.")
                      (addFake 5 st) else st in
  let st := if containsAny lower strongClickbait
            then push (lit "The headline uses strong clickbait expressions.")
                      (addFake 4 st) else st in
  let st := if containsAny lower sensationalWords
            then push (lit "The wording is sensational or emotionally exaggerated.")
                      (addFake 3 st) else st in
  let st := if containsAny lower absoluteLanguage
            then push (lit "Contains absolute language often found in misleading content.")
                      (addFake 2 st) else st in
  let st := if 2 <=? exclamations original
            then push (lit "Multiple exclamation marks indicate exaggeration.") (addFake 3 st)
            else if exclamations original =? 1
            then push (lit "Exclamation mark suggests emotional emphasis.") (addFake 1 st)
            else st in
  let words := splitWhitespace original in
  let st := if 2 <=? Z.of_nat (List.length (allCaps words))
            then push (lit "Contains ALL-CAPS words often used in fake headlines.")
                      (addFake 3 st) else st in
  if containsAny lower trustworthyCues
  then push (lit "References research, studies, or official sources.") (addTrust 4 st)
  else st.

Definition decide (score : Z) : HeadlineLabel * Z :=
  if 3 <=? score then (fake, 92)
  else if score <=? -2 then (trustworthy, 88)
  else if 0 <? score then (fake, 85)
  else (trustworthy, 83).

Definition detectHeadline (headline : jsstring) : DetectionResult :=
  let original := trim headline in
  let lower := toLowerCase original in
  if isFalsy original then
    {| label := fake; confidence := 92;
       explanation := lit "No headline text was provided." |}
  else
    let st := scoring original lower in
    let score := fakeScore st - trustScore st in
    let '(lbl, conf) := decide score in
    {| label := lbl;
       confidence := conf;
       explanation :=
         if 0 <? Z.of_nat (List.length (reasons st))
         then join (lit " ") (reasons st)
         else lit "The headline appears neutral and does not match patterns of misleading or sensational content." |}.

End Detector.

End FixedConfidence.

(** The phrases the weighted revision added to the tables of the
    fixed-confidence one. *)
Definition addedFakePhrases : list jsstring := map lit [
  "resurrect"; "weather control"; "secret method"; "what happens next";
  "insider reveals" ]%string.

Definition addedTrustPhrases : list jsstring := map lit [ "report"; "analysis" ]%string.

(** Every phrase of the first table is a phrase of the second. *)
Definition subTable (a b : list jsstring) : bool :=
  forallb (fun p => existsb (strictEq p) b) a.

(* ================================================================== *)
(** ** The headline logger, [logServer.ts] *)

Module LogServer.

(** The log file holds bytes; a byte is a number below 256. *)
Definition bytes : Type := list N.

Definition quote : N := 34%N.
Definition comma : N := 44%N.
Definition newline : N := 10%N.

(** *** Writing a string as UTF-8

    The code points of a string: a high surrogate followed by a low one is
    one code point, any other surrogate is replaced by U+FFFD. *)
Definition isHighSurrogate (c : codeunit) : bool := N.leb 55296 c && N.leb c 56319.
Definition isLowSurrogate (c : codeunit) : bool := N.leb 56320 c && N.leb c 57343.
Definition replacementCharacter : N := 65533%N.

Fixpoint codePoints (s : jsstring) : list N :=
  match s with
  | [] => []
  | c :: rest =>
      if isHighSurrogate c then
        match rest with
        | d :: rest' =>
            if isLowSurrogate d
            then (65536 + (c - 55296) * 1024 + (d - 56320))%N :: codePoints rest'
            else replacementCharacter :: codePoints rest
        | [] => [replacementCharacter]
        end
      else if isLowSurrogate c then replacementCharacter :: codePoints rest
      else c :: codePoints rest
  end.

Definition encodeCodePoint (cp : N) : bytes :=
  if N.ltb cp 128 then [cp]
  else if N.ltb cp 2048 then [192 + cp / 64; 128 + cp mod 64]%N
  else if N.ltb cp 65536 then
    [224 + cp / 4096; 128 + (cp / 64) mod 64; 128 + cp mod 64]%N
  else
    [240 + cp / 262144; 128 + (cp / 4096) mod 64; 128 + (cp / 64) mod 64;
     128 + cp mod 64]%N.

(** What a write with the encoding "utf8" puts in the file. *)
Definition utf8Encode (s : jsstring) : bytes :=
  flat_map encodeCodePoint (codePoints s).

(** *** The file

    [fs.existsSync], [fs.writeFileSync] and [fs.appendFileSync] on the one
    path the server uses: the file is absent, or holds bytes. *)
Definition FileSystem : Type := option bytes.

Definition existsSync (fs : FileSystem) : bool :=
  match fs with Some _ => true | None => false end.
Definition writeFileSync (data : jsstring) (fs : FileSystem) : FileSystem :=
  Some (utf8Encode data).
Definition appendFileSync (data : jsstring) (fs : FileSystem) : FileSystem :=
  match fs with
  | Some content => Some (content ++ utf8Encode data)
  | None => Some (utf8Encode data)
  end.

Definition header : jsstring :=
  lit "timestamp,headline,label,confidence" ++ [newline].

Definition ensureHeader (fs : FileSystem) : FileSystem :=
  if negb (existsSync fs) then writeFileSync header fs else fs.

(** [s.replace] of every double-quote code unit by two of them. *)
Definition escapeQuotes (s : list N) : list N :=
  flat_map (fun c => if N.eqb c quote then [quote; quote] else [c]) s.

(** *** Numbers of the runtime

    The doubles, their text and their parsing belong to the runtime. *)
Class NumberRuntime : Type := {
  double : Type;
  zero : double;
  one : double;
  nan : double;
  numberToString : double -> jsstring;
  stringToNumber : jsstring -> double;
  numberIsTruthy : double -> bool
}.

Inductive Json : Type :=
  | errorJson (error : jsstring)
  | okJson (ok : bool).

(** A response: the status and the JSON sent, if the body is JSON. *)
Record Response : Type := {
  status : Z;
  json : option Json
}.

Section Handler.

Context {numbers : NumberRuntime}.

(** A value of the parsed JSON body; [JUndefined] for an absent field.
    An object is its own properties, in any order. *)
#[warnings="-register-all"]
Inductive JValue : Type :=
  | JUndefined
  | JNull
  | JBoolean (b : bool)
  | JNumber (n : double)
  | JString (s : jsstring)
  | JArray (items : list JValue)
  | JObject (fields : list (jsstring * JValue)).

(** [req.body || {}], destructured. *)
Record Body : Type := {
  headline : JValue;
  label : JValue;
  confidence : JValue
}.

(** Truthiness. *)
Definition isTruthy (v : JValue) : bool :=
  match v with
  | JUndefined | JNull => false
  | JBoolean b => b
  | JNumber n => numberIsTruthy n
  | JString s => negb (isFalsy s)
  | JArray _ | JObject _ => true
  end.

Definition typeofIsString (v : JValue) : bool :=
  match v with JString _ => true | _ => false end.

(** [v ?? d] *)
Definition nullish (v d : JValue) : JValue :=
  match v with JUndefined | JNull => d | _ => v end.

Definition hasOwn (key : jsstring) (fields : list (jsstring * JValue)) : bool :=
  existsb (fun field => strictEq (fst field) key) fields.

(** [String(v)]; [None] when it throws.  An array is joined with commas,
    [null] and [undefined] elements giving nothing.  A plain object answers
    through [Object.prototype.toString], unless a property of its own named
    [toString] hides that method: a parsed value is never callable, and
    [valueOf] returns no primitive, so the conversion throws [TypeError]. *)
Fixpoint String_ (v : JValue) : option jsstring :=
  match v with
  | JUndefined => Some (lit "undefined")
  | JNull => Some (lit "null")
  | JBoolean b => Some (if b then lit "true" else lit "false")
  | JNumber n => Some (numberToString n)
  | JString s => Some s
  | JArray items =>
      let elements :=
        (fix elements (l : list JValue) : option (list jsstring) :=
           match l with
           | [] => Some []
           | x :: l' =>
               let text :=
                 match x with
                 | JUndefined | JNull => Some []
                 | _ => String_ x
                 end in
               match text, elements l' with
               | Some t, Some ts => Some (t :: ts)
               | _, _ => None
               end
           end) items in
      match elements with
      | Some texts => Some (join (lit ",") texts)
      | None => None
      end
  | JObject fields =>
      if hasOwn (lit "toString") fields then None
      else Some (lit "[object Object]")
  end.

(** [Number(v)]; [None] when it throws.  Arrays and objects go through
    their string. *)
Definition Number_ (v : JValue) : option double :=
  match v with
  | JUndefined => Some nan
  | JNull => Some zero
  | JBoolean b => Some (if b then one else zero)
  | JNumber n => Some n
  | JString s => Some (stringToNumber s)
  | JArray _ | JObject _ =>
      match String_ v with
      | Some text => Some (stringToNumber text)
      | None => None
      end
  end.

(** The line of the template literal. *)
Definition line (timestamp safeHeadline safeLabel : jsstring) (safeConfidence : double)
    : jsstring :=
  [quote] ++ timestamp ++ [quote; comma; quote] ++ safeHeadline
  ++ [quote; comma; quote] ++ safeLabel ++ [quote; comma]
  ++ numberToString safeConfidence ++ [newline].

Definition badRequest : Response :=
  {| status := 400; json := Some (errorJson (lit "headline is required")) |}.

(** What Express answers when the handler throws: its error page. *)
Definition serverError : Response := {| status := 500; json := None |}.

(** The handler of [POST /log-headline]; [timestamp] is what
    [new Date().toISOString()] returns when the request is served. *)
Definition logHeadline (timestamp : jsstring) (body : Body) (fs : FileSystem)
    : Response * FileSystem :=
  if negb (isTruthy (headline body)) || negb (typeofIsString (headline body)) then
    (badRequest, fs)
  else
    match headline body with
    | JString h =>
        let safeHeadline := escapeQuotes h in
        match String_ (nullish (label body) (JString [])) with
        | None => (serverError, fs)
        | Some labelText =>
            let safeLabel := escapeQuotes labelText in
            match Number_ (nullish (confidence body) (JNumber zero)) with
            | None => (serverError, fs)
            | Some safeConfidence =>
                let fs := ensureHeader fs in
                let fs :=
                  appendFileSync (line timestamp safeHeadline safeLabel safeConfidence) fs in
                ({| status := 200; json := Some (okJson true) |}, fs)
            end
        end
    | _ => (* not reached: the guard above returned *)
        (badRequest, fs)
    end.

(** Requests served one after another. *)
Fixpoint serve (requests : list (jsstring * Body)) (fs : FileSystem)
    : list Response * FileSystem :=
  match requests with
  | [] => ([], fs)
  | (timestamp, body) :: rest =>
      let '(response, fs) := logHeadline timestamp body fs in
      let '(responses, fs) := serve rest fs in
      (response :: responses, fs)
  end.

(** The line a request adds to the log, if it adds one: its headline is a
    non-empty string and neither conversion throws. *)
Definition lineOf (request : jsstring * Body) : option jsstring :=
  match headline (snd request) with
  | JString (c :: h) =>
      match String_ (nullish (label (snd request)) (JString [])),
            Number_ (nullish (confidence (snd request)) (JNumber zero)) with
      | Some labelText, Some safeConfidence =>
          Some (line (fst request) (escapeQuotes (c :: h)) (escapeQuotes labelText)
                     safeConfidence)
      | _, _ => None
      end
  | _ => None
  end.

Definition logged (requests : list (jsstring * Body)) : list jsstring :=
  flat_map (fun request => match lineOf request with Some l => [l] | None => [] end)
           requests.

End Handler.

(** A runtime of whole numbers for running examples: [None] stands for
    NaN; parsing is exact on the empty string and on strings of decimal
    digits, and gives NaN for every other string. *)
Definition exampleParse (s : jsstring) : option Z :=
  if forallb (fun c => N.leb 48 c && N.leb c 57) s
  then Some (fold_left (fun acc c => acc * 10 + Z.of_N (c - 48)) s 0)
  else None.

Definition exampleText (n : option Z) : jsstring :=
  match n with
  | Some z => lit (NilZero.string_of_int (Z.to_int z))
  | None => lit "NaN"
  end.

Definition exampleNumbers : NumberRuntime := {|
  double := option Z;
  zero := Some 0;
  one := Some 1;
  nan := None;
  numberToString := exampleText;
  stringToNumber := exampleParse;
  numberIsTruthy := fun n => match n with Some z => negb (z =? 0) | None => false end
|}.

(** *** Reading the file back

    A reader of the quoted fields of a line, on bytes: the bytes after an
    opening quote up to the first quote that is not doubled, a doubled
    quote standing for one. *)
Fixpoint readQuotedBody (s : bytes) : option (bytes * bytes) :=
  match s with
  | [] => None
  | c :: rest =>
      if N.eqb c quote then
        match rest with
        | d :: rest' =>
            if N.eqb d quote then
              match readQuotedBody rest' with
              | Some (field, after) => Some (quote :: field, after)
              | None => None
              end
            else Some ([], rest)
        | [] => Some ([], [])
        end
      else
        match readQuotedBody rest with
        | Some (field, after) => Some (c :: field, after)
        | None => None
        end
  end.

(** A quoted field followed by a comma. *)
Definition readField (s : bytes) : option (bytes * bytes) :=
  match s with
  | c :: rest =>
      if N.eqb c quote then
        match readQuotedBody rest with
        | Some (field, d :: after) =>
            if N.eqb d comma then Some (field, after) else None
        | _ => None
        end
      else None
  | [] => None
  end.

(** The three quoted fields of a log line and what follows them. *)
Definition readLine (s : bytes) : option (bytes * bytes * bytes * bytes) :=
  match readField s with
  | Some (timestamp, s1) =>
      match readField s1 with
      | Some (headlineBytes, s2) =>
          match readField s2 with
          | Some (labelBytes, s3) => Some (timestamp, headlineBytes, labelBytes, s3)
          | None => None
          end
      | None => None
      end
  | None => None
  end.

End LogServer.

(* ================================================================== *)
(** ** Vocabulary of the statements *)

Definition weightIf (b : bool) (w : Z) : Z := if b then w else 0.
Definition sentenceIf (b : bool) (r : jsstring) : list jsstring :=
  if b then [r] else [].

(** Weight of the punctuation rule: 3 from two marks on, 1 for one. *)
Definition exclamationWeight (original : jsstring) : Z :=
  if 2 <=? exclamations original then 3
  else if exclamations original =? 1 then 1 else 0.

Definition exclamationSentence (original : jsstring) : list jsstring :=
  if 2 <=? exclamations original then [multipleExclamationsReason]
  else if exclamations original =? 1 then [oneExclamationReason] else [].

Definition wordCount (original : jsstring) : Z :=
  Z.of_nat (List.length (splitWhitespace original)).

(** The first code unit, if there is one, is not white space. *)
Definition startsBlack (s : jsstring) : Prop :=
  match s with [] => True | c :: _ => isWhiteSpace c = false end.

Definition blackOnly (s : jsstring) : bool :=
  forallb (fun c => negb (isWhiteSpace c)) s.

(** A lower-case ASCII letter, the only ASCII code units [toUpperCase] moves. *)
Definition isLowerAsciiLetter (c : codeunit) : bool :=
  N.leb 97 c && N.leb c 122.

(** Every pair of label and confidence the weighted detector can return. *)
Definition verdicts : list (HeadlineLabel * Z) :=
  [ (fake, 0); (fake, 75); (fake, 80); (fake, 91); (fake, 93); (fake, 95);
    (trustworthy, 70); (trustworthy, 75); (trustworthy, 88); (trustworthy, 90) ].

Definition verdict (r : DetectionResult) : HeadlineLabel * Z :=
  (label r, confidence r).

Section Vocabulary.

Context {runtime : CaseConversion}.

Definition shouting (original : jsstring) : bool :=
  2 <=? Z.of_nat (List.length (allCaps (splitWhitespace original))).

(** What the rules other than the phrase categories add to [fakeScore]. *)
Definition structuralFake (original : jsstring) : Z :=
  exclamationWeight original
  + weightIf (shouting original) 3
  + weightIf (wordCount original <? 5) 1.

(** What the length rule adds to [trustScore]. *)
Definition structuralTrust (original : jsstring) : Z :=
  weightIf (14 <? wordCount original) 1.

(** The state when control reaches the length analysis. *)
Definition beforeLength (original lower : jsstring) : ScoreState :=
  trustRule lower
    (allCapsRule (splitWhitespace original)
      (punctuationRule original
        (absoluteRule lower
          (sensationalRule lower
            (clickbaitRule lower
              (impossibleRule lower initialState)))))).


(** The four fake-leaning phrase categories. *)
Definition fakeCategories : list (list jsstring) :=
  [impossibleClaims; strongClickbait; sensationalWords; absoluteLanguage].

(** Every fake-leaning category that fires on the first headline fires on
    the second. *)
Definition categorySuperset (h1 h2 : jsstring) : Prop :=
  forall phrases, In phrases fakeCategories ->
    containsAny (toLowerCase (trim h1)) phrases = true ->
    containsAny (toLowerCase (trim h2)) phrases = true.

Definition scoresOf (headline : jsstring) : ScoreState :=
  scoring (trim headline) (toLowerCase (trim headline)).

End Vocabulary.

(* ================================================================== *)
(** ** Facts about the string primitives *)

Section StringFacts.

Lemma startsWith_spec (text item : jsstring) :
  startsWith text item = true <-> exists post, text = item ++ post.
Proof.
  revert text; induction item as [|i item IH]; intros text; simpl.
  - split; [intros _; now exists text | reflexivity].
  - destruct text as [|t text].
    + split; [discriminate | intros [post H]; discriminate].
    + rewrite andb_true_iff, N.eqb_eq, IH. split.
      * intros [-> [post ->]]. now exists post.
      * intros [post H]. injection H as -> ->. split; [reflexivity | now exists post].
Qed.

(** [includes] is literal substring containment. *)
Lemma includes_spec (text item : jsstring) :
  includes text item = true <-> exists pre post, text = pre ++ item ++ post.
Proof.
  induction text as [|t text IH].
  - simpl. rewrite orb_false_r, startsWith_spec. split.
    + intros [post H]. now exists [], post.
    + intros [pre [post H]]. destruct pre; [now exists post|discriminate].
  - change (includes (t :: text) item)
      with (startsWith (t :: text) item || includes text item).
    rewrite orb_true_iff, startsWith_spec, IH. split.
    + intros [[post H] | [pre [post H]]].
      * now exists [], post.
      * exists (t :: pre), post. simpl. now rewrite H.
    + intros [pre [post H]]. destruct pre as [|p pre].
      * left. now exists post.
      * right. injection H as _ H. now exists pre, post.
Qed.

Lemma containsAny_spec (text : jsstring) (arr : list jsstring) :
  containsAny text arr = true <->
  exists item, In item arr /\ exists pre post, text = pre ++ item ++ post.
Proof.
  unfold containsAny. rewrite existsb_exists.
  split; intros [item [Hin H]]; exists item; split; auto; now apply includes_spec.
Qed.

Lemma dropWhile_all (p : codeunit -> bool) (s : jsstring) :
  forallb p s = true -> dropWhile p s = [].
Proof.
  induction s as [|c s IH]; simpl; [reflexivity|].
  destruct (p c); simpl; [exact IH | discriminate].
Qed.

Lemma dropWhile_nil_all (p : codeunit -> bool) (s : jsstring) :
  dropWhile p s = [] -> forallb p s = true.
Proof.
  induction s as [|c s IH]; simpl; [reflexivity|].
  destruct (p c); simpl; [exact IH | discriminate].
Qed.

(** The trimmed form is empty exactly for strings of white space. *)
Lemma trim_empty_iff (s : jsstring) :
  trim s = [] <-> forallb isWhiteSpace s = true.
Proof.
  unfold trim, trimEnd, trimStart. split.
  - intros H. apply dropWhile_nil_all.
    destruct (dropWhile isWhiteSpace s) as [|c r] eqn:E; [reflexivity|].
    exfalso.
    assert (Hr : dropWhile isWhiteSpace (rev (c :: r)) = []).
    { apply (f_equal (@rev _)) in H. rewrite rev_involutive in H. exact H. }
    apply dropWhile_nil_all in Hr. rewrite forallb_forall in Hr.
    assert (Hc : isWhiteSpace c = true) by (apply Hr, in_rev; rewrite rev_involutive; now left).
    clear -E Hc. induction s as [|d s IH]; simpl in E; [discriminate|].
    destruct (isWhiteSpace d) eqn:Ed; [auto|]. injection E as -> _. congruence.
  - intros H. rewrite (dropWhile_all _ _ H). reflexivity.
Qed.

Lemma Math_round_integer (x : Z) : Math_round x = x.
Proof.
  unfold Math_round. symmetry.
  apply (Z.div_unique_pos (2 * x + 1) 2 x 1); lia.
Qed.

End StringFacts.

(* ================================================================== *)
(** ** ASCII headlines behave alike in every runtime *)

Section AsciiHeadlines.

Lemma isAsciiString_dropWhile (p : codeunit -> bool) (s : jsstring) :
  isAsciiString s = true -> isAsciiString (dropWhile p s) = true.
Proof.
  unfold isAsciiString. induction s as [|c s IH]; simpl; [auto|].
  intros H. destruct (p c); [apply IH; now apply andb_true_iff in H | exact H].
Qed.

Lemma isAsciiString_rev (s : jsstring) :
  isAsciiString s = true -> isAsciiString (rev s) = true.
Proof.
  unfold isAsciiString. rewrite !forallb_forall.
  intros H c Hc. apply H. now apply in_rev.
Qed.

Lemma isAsciiString_trim (s : jsstring) :
  isAsciiString s = true -> isAsciiString (trim s) = true.
Proof.
  intros H. unfold trim, trimEnd, trimStart.
  now apply isAsciiString_rev, isAsciiString_dropWhile,
            isAsciiString_rev, isAsciiString_dropWhile.
Qed.

Lemma isAsciiString_splitFrom (s : jsstring) :
  forall inSep cur w,
    isAsciiString s = true -> isAsciiString cur = true ->
    In w (splitFrom inSep cur s) -> isAsciiString w = true.
Proof.
  induction s as [|c s IH]; intros inSep cur w Hs Hcur; simpl.
  - intros [<- | []]. now apply isAsciiString_rev.
  - unfold isAsciiString in Hs; simpl in Hs. apply andb_true_iff in Hs as [Hc Hs].
    destruct (isWhiteSpace c).
    + destruct inSep.
      * now apply IH.
      * intros [<- | Hin]; [now apply isAsciiString_rev | now apply IH with true []].
    + apply IH; [exact Hs|]. unfold isAsciiString; simpl. now rewrite Hc.
Qed.

Lemma isAsciiString_words (s w : jsstring) :
  isAsciiString s = true -> In w (splitWhitespace s) -> isAsciiString w = true.
Proof. intros Hs. now apply isAsciiString_splitFrom. Qed.

Context {runtime : CaseConversion}.

Lemma allCaps_ascii (words : list jsstring) :
  (forall w, In w words -> isAsciiString w = true) ->
  allCaps words = allCaps (runtime := asciiCase) words.
Proof.
  intros H. unfold allCaps. apply filter_ext_in.
  intros w Hw. now rewrite (toUpperCase_ascii w (H w Hw)).
Qed.

Lemma scoring_ascii (original lower : jsstring) :
  isAsciiString original = true ->
  scoring original lower = scoring (runtime := asciiCase) original lower.
Proof.
  intros H. unfold scoring, allCapsRule.
  rewrite (allCaps_ascii (splitWhitespace original)); [reflexivity|].
  intros w. now apply isAsciiString_words.
Qed.

(** On an ASCII headline the detector does what it does with the
    ASCII-only conversion, whatever the runtime's tables say elsewhere. *)
Lemma detectHeadline_ascii (headline : jsstring) :
  isAsciiString headline = true ->
  detectHeadline headline = detectHeadline (runtime := asciiCase) headline.
Proof.
  intros H. apply isAsciiString_trim in H. unfold detectHeadline.
  rewrite (toLowerCase_ascii _ H), (scoring_ascii _ _ H). reflexivity.
Qed.

Lemma headline_scoring_ascii (headline : jsstring) :
  isAsciiString headline = true ->
  scoring (trim headline) (toLowerCase (trim headline)) =
  scoring (runtime := asciiCase) (trim headline)
          (toLowerCase (CaseConversion := asciiCase) (trim headline)).
Proof.
  intros H. apply isAsciiString_trim in H.
  rewrite (toLowerCase_ascii _ H), (scoring_ascii _ _ H). reflexivity.
Qed.

End AsciiHeadlines.

(* ================================================================== *)
(** ** What each rule does to the scores *)

Section RuleFacts.

Context {runtime : CaseConversion}.

Lemma scoring_unfold (original lower : jsstring) :
  scoring original lower =
  lengthRule (splitWhitespace original) (beforeLength original lower).
Proof. reflexivity. Qed.

(** A phrase rule: weight [w] onto one score and one sentence, or nothing. *)
Lemma phraseRule_fake (b : bool) (w : Z) (r : jsstring) (st : ScoreState) :
  let st' := if b then push r (addFake w st) else st in
  fakeScore st' = fakeScore st + weightIf b w /\
  trustScore st' = trustScore st /\
  reasons st' = reasons st ++ sentenceIf b r.
Proof.
  destruct b; simpl; repeat split; try lia. now rewrite app_nil_r.
Qed.

Lemma phraseRule_trust (b : bool) (w : Z) (r : jsstring) (st : ScoreState) :
  let st' := if b then push r (addTrust w st) else st in
  fakeScore st' = fakeScore st /\
  trustScore st' = trustScore st + weightIf b w /\
  reasons st' = reasons st ++ sentenceIf b r.
Proof.
  destruct b; simpl; repeat split; try lia. now rewrite app_nil_r.
Qed.

Lemma punctuationRule_effect (original : jsstring) (st : ScoreState) :
  let st' := punctuationRule original st in
  fakeScore st' = fakeScore st + exclamationWeight original /\
  trustScore st' = trustScore st /\
  reasons st' = reasons st ++ exclamationSentence original.
Proof.
  unfold punctuationRule, exclamationWeight, exclamationSentence.
  destruct (2 <=? exclamations original); [|destruct (exclamations original =? 1)];
    simpl; repeat split; try lia; now rewrite app_nil_r.
Qed.

Lemma lengthRule_effect (words : list jsstring) (st : ScoreState) :
  let n := Z.of_nat (List.length words) in
  let st' := lengthRule words st in
  fakeScore st' = fakeScore st + weightIf (n <? 5) 1 /\
  trustScore st' = trustScore st + weightIf (14 <? n) 1 /\
  reasons st' = reasons st.
Proof.
  unfold lengthRule.
  destruct (14 <? Z.of_nat (List.length words));
    destruct (Z.of_nat (List.length words) <? 5); simpl; repeat split; lia.
Qed.

(** The state before the length analysis, rule by rule. *)
Lemma beforeLength_effect (original lower : jsstring) :
  let st := beforeLength original lower in
  fakeScore st =
    weightIf (containsAny lower impossibleClaims) 5
    + weightIf (containsAny lower strongClickbait) 4
    + weightIf (containsAny lower sensationalWords) 3
    + weightIf (containsAny lower absoluteLanguage) 2
    + exclamationWeight original
    + weightIf (shouting original) 3 /\
  trustScore st = weightIf (containsAny lower trustworthyCues) 4 /\
  reasons st =
    sentenceIf (containsAny lower impossibleClaims) impossibleReason
    ++ sentenceIf (containsAny lower strongClickbait) clickbaitReason
    ++ sentenceIf (containsAny lower sensationalWords) sensationalReason
    ++ sentenceIf (containsAny lower absoluteLanguage) absoluteReason
    ++ exclamationSentence original
    ++ sentenceIf (shouting original) allCapsReason
    ++ sentenceIf (containsAny lower trustworthyCues) trustReason.
Proof.
  unfold beforeLength, trustRule, allCapsRule.
  fold (shouting original).
  set (s1 := impossibleRule lower initialState).
  set (s2 := clickbaitRule lower s1).
  set (s3 := sensationalRule lower s2).
  set (s4 := absoluteRule lower s3).
  set (s5 := punctuationRule original s4).
  set (s6 := if shouting original then push allCapsReason (addFake 3 s5) else s5).
  destruct (phraseRule_fake (containsAny lower impossibleClaims) 5 impossibleReason initialState)
    as (F1 & T1 & R1). fold (impossibleRule lower initialState) in F1, T1, R1. fold s1 in F1, T1, R1.
  destruct (phraseRule_fake (containsAny lower strongClickbait) 4 clickbaitReason s1)
    as (F2 & T2 & R2). fold (clickbaitRule lower s1) in F2, T2, R2. fold s2 in F2, T2, R2.
  destruct (phraseRule_fake (containsAny lower sensationalWords) 3 sensationalReason s2)
    as (F3 & T3 & R3). fold (sensationalRule lower s2) in F3, T3, R3. fold s3 in F3, T3, R3.
  destruct (phraseRule_fake (containsAny lower absoluteLanguage) 2 absoluteReason s3)
    as (F4 & T4 & R4). fold (absoluteRule lower s3) in F4, T4, R4. fold s4 in F4, T4, R4.
  destruct (punctuationRule_effect original s4) as (F5 & T5 & R5). fold s5 in F5, T5, R5.
  destruct (phraseRule_fake (shouting original) 3 allCapsReason s5) as (F6 & T6 & R6).
  fold s6 in F6, T6, R6.
  destruct (phraseRule_trust (containsAny lower trustworthyCues) 4 trustReason s6)
    as (F7 & T7 & R7).
  cbv zeta. rewrite F7, T7, R7, F6, T6, R6, F5, T5, R5, F4, T4, R4, F3, T3, R3,
    F2, T2, R2, F1, T1, R1.
  simpl. rewrite <- !app_assoc. repeat split; lia.
Qed.

End RuleFacts.

(* ================================================================== *)
(** ** Shared lemmas on the whole scoring section and the decision *)

Section ScoringFacts.

Context {runtime : CaseConversion}.

Lemma scoring_effect (original lower : jsstring) :
  let st := scoring original lower in
  fakeScore st =
    weightIf (containsAny lower impossibleClaims) 5
    + weightIf (containsAny lower strongClickbait) 4
    + weightIf (containsAny lower sensationalWords) 3
    + weightIf (containsAny lower absoluteLanguage) 2
    + structuralFake original /\
  trustScore st =
    weightIf (containsAny lower trustworthyCues) 4 + structuralTrust original /\
  reasons st = reasons (beforeLength original lower).
Proof.
  cbv zeta. rewrite scoring_unfold.
  destruct (lengthRule_effect (splitWhitespace original) (beforeLength original lower))
    as (F & T & R).
  destruct (beforeLength_effect original lower) as (F0 & T0 & _).
  rewrite F, T, R, F0, T0. unfold structuralFake, structuralTrust, wordCount.
  repeat split; lia.
Qed.

Lemma weightIf_nonneg (b : bool) (w : Z) : 0 <= w -> 0 <= weightIf b w.
Proof. destruct b; simpl; lia. Qed.

Lemma exclamationWeight_nonneg (original : jsstring) : 0 <= exclamationWeight original.
Proof.
  unfold exclamationWeight.
  destruct (2 <=? exclamations original); [lia|].
  destruct (exclamations original =? 1); lia.
Qed.

Lemma scoring_nonneg (original lower : jsstring) :
  0 <= fakeScore (scoring original lower) /\ 0 <= trustScore (scoring original lower).
Proof.
  destruct (scoring_effect original lower) as (F & T & _). rewrite F, T.
  unfold structuralFake, structuralTrust.
  pose proof (exclamationWeight_nonneg original).
  pose proof (weightIf_nonneg (containsAny lower impossibleClaims) 5).
  pose proof (weightIf_nonneg (containsAny lower strongClickbait) 4).
  pose proof (weightIf_nonneg (containsAny lower sensationalWords) 3).
  pose proof (weightIf_nonneg (containsAny lower absoluteLanguage) 2).
  pose proof (weightIf_nonneg (containsAny lower trustworthyCues) 4).
  pose proof (weightIf_nonneg (shouting original) 3).
  pose proof (weightIf_nonneg (wordCount original <? 5) 1).
  pose proof (weightIf_nonneg (14 <? wordCount original) 1).
  lia.
Qed.

Lemma result_fields (st : ScoreState) :
  label (result st) = fst (decide st) /\
  confidence (result st) = Math_min 95 (Math_round (snd (decide st))) /\
  explanation (result st) = explain st.
Proof. unfold result. destruct (decide st); simpl. auto. Qed.

(** The label is [fake] exactly when the final score is positive. *)
Lemma result_label_fake (st : ScoreState) :
  label (result st) = fake <-> 0 < finalScore st.
Proof.
  destruct (result_fields st) as (L & _ & _). rewrite L. unfold decide.
  destruct (Z.leb_spec 3 (finalScore st)); simpl; [split; [lia|reflexivity]|].
  destruct (Z.leb_spec (finalScore st) (-2)); simpl; [split; [discriminate|lia]|].
  destruct (Z.ltb_spec 0 (finalScore st)); simpl; split; auto; try discriminate; lia.
Qed.

Lemma result_confidence_range (st : ScoreState) :
  0 <= fakeScore st -> 0 <= trustScore st ->
  70 <= confidence (result st) <= 95.
Proof.
  intros Hf Ht. destruct (result_fields st) as (_ & C & _). rewrite C.
  rewrite Math_round_integer. unfold decide, Math_min, Math_abs, finalScore.
  destruct (Z.leb_spec 3 (fakeScore st - trustScore st)); cbn [snd]; [lia|].
  destruct (Z.leb_spec (fakeScore st - trustScore st) (-2)); cbn [snd]; lia.
Qed.

Lemma detectHeadline_scored (headline : jsstring) :
  trim headline <> [] ->
  detectHeadline headline =
  result (scoring (trim headline) (toLowerCase (trim headline))).
Proof.
  intros H. unfold detectHeadline.
  destruct (trim headline); [congruence | reflexivity].
Qed.

Lemma detectHeadline_unscored (headline : jsstring) :
  trim headline = [] -> detectHeadline headline = noHeadline.
Proof. intros H. unfold detectHeadline. now rewrite H. Qed.

End ScoringFacts.

(* ================================================================== *)
(** ** The documented properties *)

Section Properties.

Context {runtime : CaseConversion}.

(** C1. A headline whose trimmed form is empty (the empty string, or white
    space only) gets exactly the sentinel: label [fake], confidence [0],
    explanation "No headline text was provided.".  The early return comes
    before the rule tables, so the answer is the same under every case
    conversion, which only the scoring stages consult. *)
Theorem empty_headline_short_circuits (headline : jsstring) :
  trim headline = [] \/ forallb isWhiteSpace headline = true ->
  detectHeadline headline =
  {| label := fake;
     confidence := 0;
     explanation := lit "No headline text was provided." |}.
Proof.
  intros H. apply detectHeadline_unscored.
  destruct H as [H | H]; [exact H | now apply trim_empty_iff].
Qed.

(** C2. The confidence of every result is an integer between 0 and 95. *)
Theorem confidence_bounded (headline : jsstring) :
  0 <= confidence (detectHeadline headline) <= 95.
Proof.
  destruct (trim headline) as [|c r] eqn:E.
  - rewrite (detectHeadline_unscored headline E). simpl. lia.
  - rewrite detectHeadline_scored by congruence.
    destruct (scoring_nonneg (trim headline) (toLowerCase (trim headline))) as [Hf Ht].
    pose proof (result_confidence_range _ Hf Ht). rewrite E in *. lia.
Qed.

(** C3. For a headline that is not empty after trimming, with
    [finalScore = fakeScore - trustScore]: from 3 up the label is [fake] and
    the confidence [min(95, round(85 + min(fakeScore * 2, 10)))]; down from
    -2 the label is [trustworthy] and the confidence
    [min(95, round(80 + min(trustScore * 2, 15)))]; in the band from -1 to 2
    the label is [fake] for a positive final score and [trustworthy]
    otherwise, and the confidence [min(95, round(70 + |finalScore| * 5))].
    The three cases exclude one another and leave no final score out. *)
Theorem decision_thresholds (headline : jsstring) :
  trim headline <> [] ->
  let st := scoring (trim headline) (toLowerCase (trim headline)) in
  let final := fakeScore st - trustScore st in
  let r := detectHeadline headline in
  (3 <= final ->
     label r = fake /\
     confidence r = Z.min 95 (Math_round (85 + Z.min (fakeScore st * 2) 10))) /\
  (final <= -2 ->
     label r = trustworthy /\
     confidence r = Z.min 95 (Math_round (80 + Z.min (trustScore st * 2) 15))) /\
  (-1 <= final <= 2 ->
     label r = (if 0 <? final then fake else trustworthy) /\
     confidence r = Z.min 95 (Math_round (70 + Z.abs final * 5))).
Proof.
  intros H st final r. subst r. rewrite (detectHeadline_scored headline H). fold st.
  destruct (result_fields st) as (L & C & _). rewrite L, C.
  unfold decide, finalScore, Math_min, Math_abs. fold final.
  destruct (Z.leb_spec 3 final); [|destruct (Z.leb_spec final (-2))]; cbn [fst snd];
    repeat split; intros; try lia; try reflexivity.
Qed.

(** C10. For a headline that is not empty after trimming the confidence is
    at least 70: no value strictly between 0 and 70 is ever produced. *)
Theorem scored_confidence_at_least_70 (headline : jsstring) :
  trim headline <> [] -> 70 <= confidence (detectHeadline headline).
Proof.
  intros H. rewrite (detectHeadline_scored headline H).
  destruct (scoring_nonneg (trim headline) (toLowerCase (trim headline))) as [Hf Ht].
  apply (result_confidence_range _ Hf Ht).
Qed.

(** C4. Each of the five phrase categories fires exactly when the
    lower-cased trimmed headline has one of its phrases as a literal
    substring, anywhere, inside a word or not.  A category that fires adds
    its whole weight once to its score (5, 4, 3 and 2 to [fakeScore], 4 to
    [trustScore]) however many of its phrases occur, and one that does not
    fire adds nothing; what remains of each score comes from the
    punctuation, ALL-CAPS and length rules. *)
Theorem category_weight_added_once (headline : jsstring) :
  let original := trim headline in
  let lower := toLowerCase original in
  let st := scoring original lower in
  let fires (phrases : list jsstring) : bool := containsAny lower phrases in
  (forall phrases,
     fires phrases = true <->
     exists phrase, In phrase phrases /\
       exists before after, lower = before ++ phrase ++ after) /\
  fakeScore st =
    (if fires impossibleClaims then 5 else 0)
    + (if fires strongClickbait then 4 else 0)
    + (if fires sensationalWords then 3 else 0)
    + (if fires absoluteLanguage then 2 else 0)
    + structuralFake original /\
  trustScore st =
    (if fires trustworthyCues then 4 else 0) + structuralTrust original.
Proof.
  intros original lower st fires. split.
  - intros phrases. apply containsAny_spec.
  - destruct (scoring_effect original lower) as (F & T & _). split; assumption.
Qed.


(** C6. For a headline that is not empty after trimming, with the words
    obtained by splitting the trimmed headline on runs of white space: more
    than 14 words add exactly 1 to [trustScore], fewer than 5 add exactly 1
    to [fakeScore], and in both cases the other score and the list of
    explanation sentences stay as they were before the length analysis. *)
Theorem length_analysis_adjusts_scores (headline : jsstring) :
  trim headline <> [] ->
  let original := trim headline in
  let lower := toLowerCase original in
  let words := splitWhitespace original in
  let before := beforeLength original lower in
  let after := lengthRule words before in
  detectHeadline headline = result after /\
  (14 < Z.of_nat (List.length words) ->
     trustScore after = trustScore before + 1 /\
     fakeScore after = fakeScore before /\
     reasons after = reasons before) /\
  (Z.of_nat (List.length words) < 5 ->
     fakeScore after = fakeScore before + 1 /\
     trustScore after = trustScore before /\
     reasons after = reasons before).
Proof.
  intros H original lower words before after.
  destruct (lengthRule_effect words before) as (F & T & R).
  fold after in F, T, R. split; [|split].
  - rewrite (detectHeadline_scored headline H). reflexivity.
  - intros Hn. rewrite F, T, R.
    destruct (Z.ltb_spec 14 (Z.of_nat (List.length words))); [|lia].
    destruct (Z.ltb_spec (Z.of_nat (List.length words)) 5); [lia|].
    simpl. repeat split; lia.
  - intros Hn. rewrite F, T, R.
    destruct (Z.ltb_spec 14 (Z.of_nat (List.length words))); [lia|].
    destruct (Z.ltb_spec (Z.of_nat (List.length words)) 5); [|lia].
    simpl. repeat split; lia.
Qed.

(** C7, as the code has it.  "City council approves new budget for road
    repairs" fires no rule: both scores are 0, the final score is 0, the
    borderline branch labels it [trustworthy] with confidence 70 + 0 = 70,
    and the explanation is the neutral sentence. *)
Theorem neutral_headline_scenario :
  let headline := lit "City council approves new budget for road repairs" in
  let st := scoring (trim headline) (toLowerCase (trim headline)) in
  reasons st = [] /\
  fakeScore st - trustScore st = 0 /\
  label (detectHeadline headline) = trustworthy /\
  confidence (detectHeadline headline) = 70.
Proof.
  intros headline st. subst st.
  rewrite (headline_scoring_ascii headline) by reflexivity.
  rewrite (detectHeadline_ascii headline) by reflexivity.
  vm_compute. repeat split; reflexivity.
Qed.

Lemma bind_run {A B : Type} (c : JS A) (k : A -> JS B) (m m' : Machine) (a : A) :
  c m = (a, m') -> bind c k m = k a m'.
Proof. intros H. unfold bind. now rewrite H. Qed.

Lemma declarations_run (m : Machine) :
  (setFakeScore 0 ;; setTrustScore 0 ;; setReasons []) m =
  (tt, {| ambient := ambient m; frame := initialState |}).
Proof. reflexivity. Qed.

(** A rule that adds to [fakeScore] and pushes its sentence. *)
Lemma fake_rule_runs (b : bool) (w : Z) (r : jsstring) (m : Machine) :
  when b (addToFakeScore w ;; pushReason r) m =
  (tt, {| ambient := ambient m;
          frame := if b then push r (addFake w (frame m)) else frame m |}).
Proof. destruct m as [w0 [f t rs]]. destruct b; reflexivity. Qed.

Lemma trust_rule_runs (b : bool) (w : Z) (r : jsstring) (m : Machine) :
  when b (addToTrustScore w ;; pushReason r) m =
  (tt, {| ambient := ambient m;
          frame := if b then push r (addTrust w (frame m)) else frame m |}).
Proof. destruct m as [w0 [f t rs]]. destruct b; reflexivity. Qed.

Lemma punctuation_runs (count : Z) (m : Machine) :
  (if 2 <=? count then addToFakeScore 3 ;; pushReason multipleExclamationsReason
   else if count =? 1 then addToFakeScore 1 ;; pushReason oneExclamationReason
   else ret tt) m =
  (tt, {| ambient := ambient m;
          frame := if 2 <=? count
                   then push multipleExclamationsReason (addFake 3 (frame m))
                   else if count =? 1
                   then push oneExclamationReason (addFake 1 (frame m))
                   else frame m |}).
Proof.
  destruct m as [w0 [f t rs]].
  destruct (2 <=? count); [|destruct (count =? 1)]; reflexivity.
Qed.

Lemma long_headline_runs (b : bool) (m : Machine) :
  when b (addToTrustScore 1) m =
  (tt, {| ambient := ambient m; frame := if b then addTrust 1 (frame m) else frame m |}).
Proof. destruct m as [w0 [f t rs]]. destruct b; reflexivity. Qed.

Lemma short_headline_runs (b : bool) (m : Machine) :
  when b (addToFakeScore 1) m =
  (tt, {| ambient := ambient m; frame := if b then addFake 1 (frame m) else frame m |}).
Proof. destruct m as [w0 [f t rs]]. destruct b; reflexivity. Qed.

(** The statements of the scoring section leave in the cells of the locals
    what the rules, read as functions of the state, compute from the initial
    state, whatever the cells held before; the world is not touched. *)
Lemma scoringStatements_run (original lower : jsstring) (m : Machine) :
  scoringStatements original lower m =
  (tt, {| ambient := ambient m; frame := scoring original lower |}).
Proof.
  unfold scoringStatements. cbv zeta.
  do 3 (erewrite bind_run by reflexivity).
  do 4 (erewrite bind_run by apply fake_rule_runs).
  erewrite bind_run by apply punctuation_runs.
  erewrite bind_run by apply fake_rule_runs.
  erewrite bind_run by apply trust_rule_runs.
  erewrite bind_run by apply long_headline_runs.
  rewrite short_headline_runs. cbn [ambient frame]. reflexivity.
Qed.

(** The decision reads the cells and writes nothing. *)
Lemma decisionStatements_run (m : Machine) :
  decisionStatements m = (result (frame m), m).
Proof.
  destruct m as [w [f t rs]].
  unfold decisionStatements, result, decide, explain, finalScore, bind, ret,
    getFakeScore, getTrustScore, getReasons.
  cbn [frame fakeScore trustScore reasons].
  destruct (3 <=? f - t); [reflexivity|].
  destruct (f - t <=? -2); reflexivity.
Qed.

(** A call returns what [detectHeadline], read as a function, returns. *)
Lemma detectHeadlineCall_runs (headline : jsstring) (m : Machine) :
  detectHeadlineCall headline m =
  (detectHeadline headline,
   {| ambient := ambient m;
      frame := if isFalsy (trim headline) then frame m
               else scoring (trim headline) (toLowerCase (trim headline)) |}).
Proof.
  unfold detectHeadlineCall, detectHeadline.
  destruct (isFalsy (trim headline)).
  - destruct m. reflexivity.
  - erewrite bind_run by apply scoringStatements_run.
    rewrite decisionStatements_run. reflexivity.
Qed.

(** C8. A call of [detectHeadline] returns the same result on every
    machine: whatever the random generator holds, whatever the clock reads
    and whatever an earlier call left in the cells of the locals, the same
    headline gives the same label, confidence and explanation, and the
    world is left as it was found.  Two calls in a row agree as well,
    whatever runs between them. *)
Theorem detectHeadline_deterministic (headline : jsstring) (m1 m2 : Machine) :
  valueOf (detectHeadlineCall headline) m1 = valueOf (detectHeadlineCall headline) m2 /\
  worldAfter (detectHeadlineCall headline) m1 = ambient m1 /\
  label (valueOf (detectHeadlineCall headline) m1)
    = label (valueOf (detectHeadlineCall headline) m2) /\
  confidence (valueOf (detectHeadlineCall headline) m1)
    = confidence (valueOf (detectHeadlineCall headline) m2) /\
  explanation (valueOf (detectHeadlineCall headline) m1)
    = explanation (valueOf (detectHeadlineCall headline) m2) /\
  (forall (A : Type) (between : JS A),
     let twice :=
       first <- detectHeadlineCall headline ;;
       _ <- between ;;
       second <- detectHeadlineCall headline ;;
       ret (first, second) in
     fst (valueOf twice m1) = snd (valueOf twice m1)).
Proof.
  unfold valueOf, worldAfter.
  rewrite (detectHeadlineCall_runs headline m1), (detectHeadlineCall_runs headline m2).
  cbn [fst snd ambient]. repeat split.
  intros A between. unfold bind. rewrite (detectHeadlineCall_runs headline m1).
  destruct (between _) as [a m']. rewrite (detectHeadlineCall_runs headline m'). reflexivity.
Qed.

Lemma weightIf_mono (b1 b2 : bool) (w : Z) :
  0 <= w -> (b1 = true -> b2 = true) -> weightIf b1 w <= weightIf b2 w.
Proof.
  intros Hw H. destruct b1; simpl; [rewrite H by reflexivity; simpl; lia|].
  now apply weightIf_nonneg.
Qed.

(** C9, as the code has it.  Take two headlines, neither empty after
    trimming, with equal trust scores.  If every fake-leaning category that
    fires on the first fires on the second, and the punctuation, ALL-CAPS and
    short-length rules together give the second at least what they give the
    first, then the second's [fakeScore] is at least the first's, and if the
    first is labelled [fake] the second is not labelled [trustworthy]. *)
Theorem fake_triggers_monotone (h1 h2 : jsstring) :
  trim h1 <> [] -> trim h2 <> [] ->
  categorySuperset h1 h2 ->
  structuralFake (trim h1) <= structuralFake (trim h2) ->
  trustScore (scoresOf h1) = trustScore (scoresOf h2) ->
  fakeScore (scoresOf h1) <= fakeScore (scoresOf h2) /\
  (label (detectHeadline h1) = fake -> label (detectHeadline h2) <> trustworthy).
Proof.
  intros N1 N2 Sup Str Tr.
  assert (Hf : fakeScore (scoresOf h1) <= fakeScore (scoresOf h2)).
  { unfold scoresOf.
    destruct (scoring_effect (trim h1) (toLowerCase (trim h1))) as (F1 & _ & _).
    destruct (scoring_effect (trim h2) (toLowerCase (trim h2))) as (F2 & _ & _).
    rewrite F1, F2.
    pose proof (weightIf_mono _ _ 5 ltac:(lia) (Sup impossibleClaims ltac:(simpl; tauto))).
    pose proof (weightIf_mono _ _ 4 ltac:(lia) (Sup strongClickbait ltac:(simpl; tauto))).
    pose proof (weightIf_mono _ _ 3 ltac:(lia) (Sup sensationalWords ltac:(simpl; tauto))).
    pose proof (weightIf_mono _ _ 2 ltac:(lia) (Sup absoluteLanguage ltac:(simpl; tauto))).
    lia. }
  split; [exact Hf|].
  rewrite (detectHeadline_scored h1 N1), (detectHeadline_scored h2 N2).
  fold (scoresOf h1). fold (scoresOf h2).
  intros L1. apply result_label_fake in L1.
  assert (L2 : label (result (scoresOf h2)) = fake).
  { apply result_label_fake. unfold finalScore in *. lia. }
  rewrite L2. discriminate.
Qed.

End Properties.

(* ================================================================== *)
(** ** Where the documentation and the code part ways *)

(** C7 as documented does not hold: in no runtime is the neutral headline
    given confidence 83. *)
Lemma neutral_headline_confidence_not_83 :
  ~ exists runtime : CaseConversion,
      label (detectHeadline (lit "City council approves new budget for road repairs"))
        = trustworthy /\
      confidence (detectHeadline (lit "City council approves new budget for road repairs"))
        = 83.
Proof.
  intros [runtime [_ H]].
  rewrite detectHeadline_ascii in H by reflexivity.
  vm_compute in H. discriminate H.
Qed.

(** C9 as documented does not hold.  Both headlines below fire the same
    fake-leaning category (absolute language) and get the same trust-leaning
    contributions (the cue "study", no length bonus); the first has two
    exclamation marks and is labelled [fake], the second has none, a lower
    [fakeScore], and is labelled [trustworthy]. *)
Lemma category_superset_not_monotone :
  let h1 := lit "study never lies to us!!" in
  let h2 := lit "study never lies to us" in
  ~ exists runtime : CaseConversion,
      trim h1 <> [] -> trim h2 <> [] ->
      categorySuperset h1 h2 ->
      trustScore (scoresOf h1) = trustScore (scoresOf h2) ->
      fakeScore (scoresOf h1) <= fakeScore (scoresOf h2) /\
      (label (detectHeadline h1) = fake -> label (detectHeadline h2) <> trustworthy).
Proof.
  intros h1 h2 [runtime H].
  assert (A1 : isAsciiString h1 = true) by reflexivity.
  assert (A2 : isAsciiString h2 = true) by reflexivity.
  unfold scoresOf, categorySuperset in H.
  rewrite (headline_scoring_ascii h1 A1), (headline_scoring_ascii h2 A2) in H.
  rewrite (detectHeadline_ascii h1 A1), (detectHeadline_ascii h2 A2) in H.
  rewrite (toLowerCase_ascii _ (isAsciiString_trim _ A1)) in H.
  rewrite (toLowerCase_ascii _ (isAsciiString_trim _ A2)) in H.
  destruct H as [Hle _].
  - vm_compute. discriminate.
  - vm_compute. discriminate.
  - intros phrases Hin. unfold fakeCategories in Hin. cbn [In] in Hin.
    destruct Hin as [<- | [<- | [<- | [<- | []]]]]; vm_compute; auto.
  - vm_compute. reflexivity.
  - vm_compute in Hle. apply Hle. reflexivity.
Qed.

(** The sentinel of the empty headline is labelled [fake] without any
    score, so monotonicity speaks of scored headlines only. *)
Lemma sentinel_label_has_no_score :
  label (detectHeadline (runtime := asciiCase) (lit "  ")) = fake /\
  label (detectHeadline (runtime := asciiCase) (lit "a b c d e")) = trustworthy.
Proof. vm_compute. split; reflexivity. Qed.

(* ================================================================== *)
(** ** The theorems at work on concrete headlines *)

Lemma empty_headline_short_circuits_witness :
  (trim (lit "   ") = [] \/ forallb isWhiteSpace (lit "   ") = true) /\
  detectHeadline (runtime := asciiCase) (lit "   ") =
  {| label := fake; confidence := 0;
     explanation := lit "No headline text was provided." |}.
Proof.
  split; [right; reflexivity|].
  apply (@empty_headline_short_circuits asciiCase (lit "   ")).
  right. reflexivity.
Defined.

Lemma decision_thresholds_witness :
  let h := lit "BREAKING NEWS SHOCKING DISCOVERY!!!" in
  trim h <> [] /\
  label (detectHeadline (runtime := asciiCase) h) = fake /\
  confidence (detectHeadline (runtime := asciiCase) h)
    = Z.min 95 (Math_round (85 + Z.min (fakeScore (scoresOf (runtime := asciiCase) h) * 2) 10)).
Proof.
  intros h.
  assert (N : trim h <> []) by (vm_compute; discriminate).
  split; [exact N|].
  destruct (@decision_thresholds asciiCase h N) as (Strong & _ & _).
  apply Strong. vm_compute. discriminate.
Defined.

Lemma scored_confidence_at_least_70_witness :
  trim (lit "a b c d") <> [] /\
  70 <= confidence (detectHeadline (runtime := asciiCase) (lit "a b c d")).
Proof.
  assert (N : trim (lit "a b c d") <> []) by (vm_compute; discriminate).
  split; [exact N|].
  apply (@scored_confidence_at_least_70 asciiCase (lit "a b c d") N).
Defined.


Lemma length_analysis_adjusts_scores_witness :
  let h := lit "Miracle diet exposed" in
  let before := beforeLength (runtime := asciiCase) (trim h) (map asciiLower (trim h)) in
  let after := lengthRule (splitWhitespace (trim h)) before in
  trim h <> [] /\
  fakeScore after = fakeScore before + 1 /\
  trustScore after = trustScore before /\
  reasons after = reasons before.
Proof.
  intros h before after.
  assert (N : trim h <> []) by (vm_compute; discriminate).
  split; [exact N|].
  destruct (@length_analysis_adjusts_scores asciiCase h N) as (_ & _ & Short).
  apply Short. vm_compute. reflexivity.
Defined.

Lemma fake_triggers_monotone_witness :
  let h1 := lit "they never tell us anything" in
  let h2 := lit "they never tell us shocking things!" in
  fakeScore (scoresOf (runtime := asciiCase) h1)
    <= fakeScore (scoresOf (runtime := asciiCase) h2) /\
  (label (detectHeadline (runtime := asciiCase) h1) = fake ->
   label (detectHeadline (runtime := asciiCase) h2) <> trustworthy).
Proof.
  intros h1 h2.
  apply (@fake_triggers_monotone asciiCase h1 h2).
  - vm_compute. discriminate.
  - vm_compute. discriminate.
  - intros phrases Hin. unfold fakeCategories in Hin. cbn [In] in Hin.
    destruct Hin as [<- | [<- | [<- | [<- | []]]]]; vm_compute; auto.
  - vm_compute. discriminate.
  - vm_compute. reflexivity.
Defined.

(* ================================================================== *)
(** ** Further checks of the model *)

Section Scenarios.

Context {runtime : CaseConversion}.

(** X10. On an ASCII headline a phrase fires in whatever letter case it occurs,
    and wherever it occurs. *)
Lemma phrase_fires_in_any_ascii_case
    (headline before occurrence after : jsstring) (phrases : list jsstring) :
  isAsciiString headline = true ->
  trim headline = before ++ occurrence ++ after ->
  In (map asciiLower occurrence) phrases ->
  containsAny (toLowerCase (trim headline)) phrases = true.
Proof.
  intros A E Hin.
  rewrite (toLowerCase_ascii _ (isAsciiString_trim _ A)), E, !map_app.
  apply containsAny_spec. exists (map asciiLower occurrence). split; [exact Hin|].
  now exists (map asciiLower before), (map asciiLower after).
Qed.

Example teleportation_inside_a_token :
  containsAny (toLowerCase (trim (lit "New TelePortational device")))
    impossibleClaims = true.
Proof.
  rewrite toLowerCase_ascii by reflexivity. reflexivity.
Qed.

Example impossible_claim_scenario :
  let r := detectHeadline
    (lit "Scientists confirm teleportation technology is ready for public use") in
  label r = fake /\ confidence r = 95.
Proof.
  cbv zeta. rewrite detectHeadline_ascii by reflexivity. vm_compute. split; reflexivity.
Qed.

Example credible_cue_scenario :
  let r := detectHeadline
    (lit "New study published in a journal shows climate change accelerating") in
  label r = trustworthy /\ confidence r = 88.
Proof.
  cbv zeta. rewrite detectHeadline_ascii by reflexivity. vm_compute. split; reflexivity.
Qed.

(** Clickbait 4, exclamation marks 3, ALL-CAPS 3, and 1 for its four words. *)
Example clickbait_punctuation_caps_scenario :
  let h := lit "BREAKING NEWS SHOCKING DISCOVERY!!!" in
  fakeScore (scoresOf h) = 11 /\ trustScore (scoresOf h) = 0 /\
  label (detectHeadline h) = fake /\ confidence (detectHeadline h) = 95.
Proof.
  cbv zeta. unfold scoresOf.
  rewrite headline_scoring_ascii, detectHeadline_ascii by reflexivity.
  vm_compute. repeat split; reflexivity.
Qed.

End Scenarios.

Example split_on_runs :
  splitWhitespace (lit "road   repairs now") = [lit "road"; lit "repairs"; lit "now"].
Proof. reflexivity. Qed.

Example split_keeps_edge_pieces :
  splitWhitespace (lit " a ") = [[]; lit "a"; []] /\ splitWhitespace [] = [[]].
Proof. split; reflexivity. Qed.

Example trim_strips_both_ends :
  trim ([9; 32; 160] ++ lit "a b" ++ [10; 8233])%N = lit "a b".
Proof. reflexivity. Qed.

(** The baseline it replaced is not deterministic in this sense: its
    label follows the random generator, its confidence is computed in
    double arithmetic, and a call uses up two draws. *)
Lemma baseline_follows_the_generator :
  let machine draw :=
    {| ambient := {| randomDraws := fun _ => draw; drawn := 0; clock := 0 |};
       frame := initialState |} in
  let h := lit "City council approves new budget for road repairs" in
  label (valueOf (baselineDetectHeadline h) (machine 0%float)) = trustworthy /\
  label (valueOf (baselineDetectHeadline h) (machine 0.75%float)) = fake /\
  confidence (valueOf (baselineDetectHeadline h) (machine 0.75%float)) = 90 /\
  confidence (valueOf (baselineDetectHeadline h) (machine 0x1.e666666666666p-1%float)) = 94 /\
  drawn (worldAfter (baselineDetectHeadline h) (machine 0%float)) = 2%nat.
Proof. vm_compute. repeat split; reflexivity. Qed.

(* ================================================================== *)
(** ** More on trimming and splitting *)

Section TrimFacts.

Lemma dropWhile_app (p : codeunit -> bool) (s t : jsstring) :
  dropWhile p (s ++ t) =
  if forallb p s then dropWhile p t else dropWhile p s ++ t.
Proof.
  induction s as [|c s IH]; simpl; [reflexivity|].
  destruct (p c); simpl; [exact IH | reflexivity].
Qed.

Lemma dropWhile_decompose (p : codeunit -> bool) (s : jsstring) :
  exists pre, forallb p pre = true /\ s = pre ++ dropWhile p s.
Proof.
  induction s as [|c s [pre [Hp Hs]]]; simpl.
  - now exists [].
  - destruct (p c) eqn:E.
    + exists (c :: pre). simpl. rewrite E, Hp. split; [reflexivity | now f_equal].
    + now exists [].
Qed.

Lemma dropWhile_head (p : codeunit -> bool) (s : jsstring) :
  match dropWhile p s with [] => True | c :: _ => p c = false end.
Proof.
  induction s as [|c s IH]; simpl; [exact I|].
  destruct (p c) eqn:E; [exact IH | exact E].
Qed.

Lemma forallb_rev (p : codeunit -> bool) (s : jsstring) :
  forallb p (rev s) = forallb p s.
Proof.
  destruct (forallb p s) eqn:E.
  - rewrite forallb_forall in *. intros c Hc. apply E. now apply in_rev.
  - destruct (forallb p (rev s)) eqn:E'; [|reflexivity].
    rewrite forallb_forall in E'.
    assert (forallb p s = true) by (apply forallb_forall; intros c Hc; apply E', in_rev;
                                    now rewrite rev_involutive).
    congruence.
Qed.

Lemma trimEnd_app_white (s post : jsstring) :
  forallb isWhiteSpace post = true -> trimEnd (s ++ post) = trimEnd s.
Proof.
  intros H. unfold trimEnd. rewrite rev_app_distr, dropWhile_app, forallb_rev, H.
  reflexivity.
Qed.

(** White space around a string does not survive [trim]. *)
Lemma trim_padding (pre s post : jsstring) :
  forallb isWhiteSpace pre = true -> forallb isWhiteSpace post = true ->
  trim (pre ++ s ++ post) = trim s.
Proof.
  intros Hpre Hpost. unfold trim, trimStart.
  rewrite dropWhile_app, Hpre, dropWhile_app.
  destruct (forallb isWhiteSpace s) eqn:E.
  - rewrite (dropWhile_all _ _ Hpost), (dropWhile_all _ _ E). reflexivity.
  - now apply trimEnd_app_white.
Qed.

(** Every string is its trimmed form between two runs of white space. *)
Lemma trim_decompose (s : jsstring) :
  exists pre post,
    forallb isWhiteSpace pre = true /\ forallb isWhiteSpace post = true /\
    s = pre ++ trim s ++ post.
Proof.
  destruct (dropWhile_decompose isWhiteSpace s) as [pre [Hpre Hs]].
  destruct (dropWhile_decompose isWhiteSpace (rev (dropWhile isWhiteSpace s)))
    as [tsop [Hpost Ht]].
  exists pre, (rev tsop). rewrite forallb_rev. repeat split; auto.
  unfold trim, trimEnd, trimStart. rewrite <- rev_app_distr, <- Ht, rev_involutive.
  exact Hs.
Qed.

Lemma trim_idempotent (s : jsstring) : trim (trim s) = trim s.
Proof.
  destruct (trim_decompose s) as [pre [post (Hpre & Hpost & Hs)]].
  rewrite <- (trim_padding pre (trim s) post Hpre Hpost), <- Hs. reflexivity.
Qed.

(** A trimmed string neither starts nor ends with white space. *)
Lemma trim_ends_black (s : jsstring) : startsBlack (rev (trim s)).
Proof.
  unfold trim, trimEnd. rewrite rev_involutive. apply dropWhile_head.
Qed.

Lemma trim_starts_black (s : jsstring) : startsBlack (trim s).
Proof.
  pose proof (dropWhile_head isWhiteSpace s) as H.
  unfold trim. fold (trimStart s) in *.
  destruct (dropWhile_decompose isWhiteSpace (rev (trimStart s))) as [tsop [_ Ht]].
  apply (f_equal (@rev _)) in Ht. rewrite rev_involutive, rev_app_distr in Ht.
  fold (trimEnd (trimStart s)) in Ht.
  destruct (trimEnd (trimStart s)) as [|c r]; [exact I|].
  rewrite Ht in H. exact H.
Qed.

(** The pieces [splitFrom] returns, when the piece being read cannot end
    up empty and the text does not end in white space. *)
Lemma splitFrom_pieces (s : jsstring) :
  forall inSep cur,
    startsBlack (rev s) ->
    (s = [] -> cur <> []) ->
    (inSep = false -> cur = [] -> startsBlack s /\ s <> []) ->
    forallb (fun c => negb (isWhiteSpace c)) cur = true ->
    forall w, In w (splitFrom inSep cur s) ->
      w <> [] /\ blackOnly w = true.
Proof.
  unfold blackOnly.
  induction s as [|c rest IH]; intros inSep cur Hlast Hnil Hhead Hcur w; simpl.
  - intros [<- | []]. split.
    + intros E. apply (Hnil eq_refl). apply (f_equal (@rev _)) in E.
      now rewrite rev_involutive in E.
    + rewrite forallb_forall in *. intros x Hx. apply Hcur. now apply in_rev.
  - assert (Hrest' : startsBlack (rev rest)).
    { simpl in Hlast. destruct (rev rest) eqn:E; [exact I | exact Hlast]. }
    assert (Hpiece : forallb (fun c => negb (isWhiteSpace c)) (rev cur) = true).
    { rewrite forallb_forall in *. intros x Hx. apply Hcur. now apply in_rev. }
    destruct (isWhiteSpace c) eqn:Hc.
    + assert (Hne : rest <> []).
      { intros ->. simpl in Hlast. congruence. }
      destruct inSep.
      * apply IH; auto; try discriminate; try (intros E; contradiction).
      * intros [<- | Hin].
        -- split; [|exact Hpiece].
           intros E. apply (f_equal (@rev _)) in E. rewrite rev_involutive in E.
           simpl in E. destruct (Hhead eq_refl E) as [Hb _]. simpl in Hb. congruence.
        -- apply (IH true []); auto; try discriminate; try (intros E; contradiction).
    + apply IH; auto; try discriminate.
      simpl. now rewrite Hc, Hcur.
Qed.

Lemma splitFrom_length (s : jsstring) :
  forall inSep cur, (1 <= List.length (splitFrom inSep cur s))%nat.
Proof.
  induction s as [|c rest IH]; intros inSep cur; simpl; [lia|].
  destruct (isWhiteSpace c); [destruct inSep|]; simpl; auto; lia.
Qed.

End TrimFacts.

(* ================================================================== *)
(** ** What else the weighted detector guarantees *)

Section DetectorFacts.

Context {runtime : CaseConversion}.

(** X1. White space before and after a headline never changes the result. *)
Theorem surrounding_whitespace_ignored (before headline after : jsstring) :
  forallb isWhiteSpace before = true ->
  forallb isWhiteSpace after = true ->
  detectHeadline (before ++ headline ++ after) = detectHeadline headline.
Proof.
  intros Hb Ha. unfold detectHeadline. now rewrite (trim_padding _ _ _ Hb Ha).
Qed.

(** X2. The words of a headline that is not empty after trimming: there is at
    least one, none is empty and none holds white space, so [words.length]
    counts words and nothing else. *)
Theorem words_of_trimmed_headline (headline : jsstring) :
  trim headline <> [] ->
  let words := splitWhitespace (trim headline) in
  1 <= Z.of_nat (List.length words) /\
  forall w, In w words -> w <> [] /\ blackOnly w = true.
Proof.
  intros H words. split.
  - subst words. unfold splitWhitespace.
    pose proof (splitFrom_length (trim headline) false []). lia.
  - intros w. apply splitFrom_pieces; auto.
    + apply trim_ends_black.
    + intros _ _. split; [apply trim_starts_black | exact H].
Qed.

(** X3. The scores stay within fixed bounds whatever the headline. *)
Theorem scores_bounded (original lower : jsstring) :
  0 <= fakeScore (scoring original lower) <= 21 /\
  0 <= trustScore (scoring original lower) <= 5.
Proof.
  destruct (scoring_nonneg original lower) as [Hf Ht].
  destruct (scoring_effect original lower) as (F & T & _).
  split; split; auto; [rewrite F | rewrite T];
    unfold structuralFake, structuralTrust, exclamationWeight, weightIf;
    repeat match goal with |- context [if ?b then _ else _] => destruct b end; lia.
Qed.

Lemma trustScore_values (original lower : jsstring) :
  let t := trustScore (scoring original lower) in
  t = 0 \/ t = 1 \/ t = 4 \/ t = 5.
Proof.
  destruct (scoring_effect original lower) as (_ & T & _). cbv zeta. rewrite T.
  unfold structuralTrust, weightIf.
  destruct (containsAny lower trustworthyCues); destruct (14 <? wordCount original); lia.
Qed.

(** X4. Label and confidence always form one of ten pairs: a [trustworthy]
    verdict never carries more than 90, and the only confidence below 70 is
    the 0 of the empty headline. *)
Theorem verdict_is_listed (headline : jsstring) :
  In (verdict (detectHeadline headline)) verdicts.
Proof.
  unfold verdict. destruct (trim headline) as [|c r] eqn:E.
  - rewrite (detectHeadline_unscored headline E). simpl. tauto.
  - rewrite detectHeadline_scored by congruence.
    set (st := scoring (trim headline) (toLowerCase (trim headline))).
    destruct (scoring_nonneg (trim headline) (toLowerCase (trim headline))) as [Hf _].
    pose proof (trustScore_values (trim headline) (toLowerCase (trim headline))) as Ht.
    fold st in Hf, Ht. cbv zeta in Ht.
    destruct (result_fields st) as (L & C & _). rewrite L, C, Math_round_integer.
    unfold decide, finalScore, Math_min, Math_abs.
    destruct (Z.leb_spec 3 (fakeScore st - trustScore st)); cbn [fst snd].
    + assert (V : Z.min 95 (85 + Z.min (fakeScore st * 2) 10) = 91 \/
                  Z.min 95 (85 + Z.min (fakeScore st * 2) 10) = 93 \/
                  Z.min 95 (85 + Z.min (fakeScore st * 2) 10) = 95) by lia.
      destruct V as [-> | [-> | ->]]; simpl; tauto.
    + destruct (Z.leb_spec (fakeScore st - trustScore st) (-2)); cbn [fst snd].
      * assert (V : Z.min 95 (80 + Z.min (trustScore st * 2) 15) = 88 \/
                    Z.min 95 (80 + Z.min (trustScore st * 2) 15) = 90) by lia.
        destruct V as [-> | ->]; simpl; tauto.
      * destruct (Z.ltb_spec 0 (fakeScore st - trustScore st)).
        -- assert (V : Z.min 95 (70 + Z.abs (fakeScore st - trustScore st) * 5) = 75 \/
                       Z.min 95 (70 + Z.abs (fakeScore st - trustScore st) * 5) = 80) by lia.
           destruct V as [-> | ->]; simpl; tauto.
        -- assert (V : Z.min 95 (70 + Z.abs (fakeScore st - trustScore st) * 5) = 70 \/
                       Z.min 95 (70 + Z.abs (fakeScore st - trustScore st) * 5) = 75) by lia.
           destruct V as [-> | ->]; simpl; tauto.
Qed.

(** X6. For a scored headline the label is [fake] exactly when [fakeScore]
    exceeds [trustScore]; a tie is [trustworthy].  The thresholds 3 and -2
    move the confidence only. *)
Theorem label_follows_score_sign (headline : jsstring) :
  trim headline <> [] ->
  (label (detectHeadline headline) = fake <->
   trustScore (scoresOf headline) < fakeScore (scoresOf headline)) /\
  (label (detectHeadline headline) = trustworthy <->
   fakeScore (scoresOf headline) <= trustScore (scoresOf headline)).
Proof.
  intros H. rewrite (detectHeadline_scored headline H). fold (scoresOf headline).
  pose proof (result_label_fake (scoresOf headline)) as F. unfold finalScore in F.
  split; [rewrite F; lia|].
  destruct (label (result (scoresOf headline))) eqn:L.
  - split; [discriminate|]. intros Hle. assert (fake = fake) as X by reflexivity.
    apply F in X. lia.
  - split; [|reflexivity]. intros _.
    destruct (Z.le_gt_cases (fakeScore (scoresOf headline)) (trustScore (scoresOf headline)));
      [assumption|].
    assert (trustworthy = fake) by (apply F; lia). discriminate.
Qed.

(** X7. A headline of fewer than five words that names no trustworthy cue is
    labelled [fake], whatever else it says. *)
Theorem short_headline_without_cue_is_fake (headline : jsstring) :
  trim headline <> [] ->
  wordCount (trim headline) < 5 ->
  containsAny (toLowerCase (trim headline)) trustworthyCues = false ->
  label (detectHeadline headline) = fake.
Proof.
  intros H Hshort Hcue. rewrite (detectHeadline_scored headline H).
  apply result_label_fake. unfold finalScore.
  destruct (scoring_effect (trim headline) (toLowerCase (trim headline))) as (F & T & _).
  rewrite F, T, Hcue. unfold structuralFake, structuralTrust.
  destruct (Z.ltb_spec (wordCount (trim headline)) 5); [|lia].
  destruct (Z.ltb_spec 14 (wordCount (trim headline))); [lia|].
  pose proof (exclamationWeight_nonneg (trim headline)).
  pose proof (weightIf_nonneg (containsAny (toLowerCase (trim headline)) impossibleClaims) 5).
  pose proof (weightIf_nonneg (containsAny (toLowerCase (trim headline)) strongClickbait) 4).
  pose proof (weightIf_nonneg (containsAny (toLowerCase (trim headline)) sensationalWords) 3).
  pose proof (weightIf_nonneg (containsAny (toLowerCase (trim headline)) absoluteLanguage) 2).
  pose proof (weightIf_nonneg (shouting (trim headline)) 3).
  change (weightIf true 1) with 1. change (weightIf false 1) with 0.
  change (weightIf false 4) with 0. lia.
Qed.

End DetectorFacts.

Section MoreDetectorFacts.

Lemma strictEq_spec (a b : jsstring) : strictEq a b = true <-> a = b.
Proof.
  revert b; induction a as [|x a IH]; intros [|y b]; simpl;
    try (split; [reflexivity || discriminate | reflexivity || discriminate]).
  rewrite andb_true_iff, N.eqb_eq, IH. split.
  - intros [-> ->]. reflexivity.
  - intros E. injection E as -> ->. auto.
Qed.

Lemma asciiUpper_fixed (c : codeunit) :
  asciiUpper c = c <-> isLowerAsciiLetter c = false.
Proof.
  unfold asciiUpper, isLowerAsciiLetter.
  destruct (N.leb 97 c && N.leb c 122) eqn:E; [|tauto].
  apply andb_true_iff in E as [E1 E2]. apply N.leb_le in E1.
  split; [lia | discriminate].
Qed.

Lemma map_asciiUpper_fixed (w : jsstring) :
  w = map asciiUpper w <-> existsb isLowerAsciiLetter w = false.
Proof.
  induction w as [|c w IH]; simpl; [tauto|].
  rewrite orb_false_iff, <- IH, <- asciiUpper_fixed. split.
  - intros E. injection E as E1 E2. auto.
  - intros [E1 E2]. congruence.
Qed.

Lemma join_not_empty (sep : jsstring) (arr : list jsstring) :
  arr <> [] -> Forall (fun r => r <> []) arr -> join sep arr <> [].
Proof.
  destruct arr as [|x rest]; [congruence|]. intros _ H.
  apply Forall_inv in H. destruct x as [|c x]; [congruence|].
  destruct rest; simpl; discriminate.
Qed.

Context {runtime : CaseConversion}.

(** X8. Among ASCII words the ALL-CAPS filter keeps exactly those of four or
    more code units without a lower-case letter: digits and punctuation
    count as capitals. *)
Theorem ascii_word_counts_as_caps (words : list jsstring) (w : jsstring) :
  isAsciiString w = true ->
  (In w (allCaps words) <->
   In w words /\ 4 <= Z.of_nat (List.length w) /\ existsb isLowerAsciiLetter w = false).
Proof.
  intros A. unfold allCaps. rewrite filter_In, (toUpperCase_ascii w A).
  rewrite andb_true_iff, Z.leb_le, strictEq_spec, map_asciiUpper_fixed. tauto.
Qed.

Lemma sentenceIf_not_empty (b : bool) (r : jsstring) :
  r <> [] -> Forall (fun s => s <> []) (sentenceIf b r).
Proof. intros H. destruct b; simpl; auto. Qed.

(** X9. The explanation of a result is never the empty string. *)
Theorem explanation_never_empty (headline : jsstring) :
  explanation (detectHeadline headline) <> [].
Proof.
  destruct (trim headline) as [|c r] eqn:E.
  - rewrite (detectHeadline_unscored headline E). vm_compute. discriminate.
  - rewrite detectHeadline_scored by congruence.
    set (original := trim headline). set (lower := toLowerCase original).
    destruct (result_fields (scoring original lower)) as (_ & _ & X). rewrite X.
    unfold explain.
    destruct (reasons (scoring original lower)) as [|s rs] eqn:R.
    + vm_compute. discriminate.
    + change (0 <? Z.of_nat (List.length (s :: rs))) with true. cbv iota.
      apply join_not_empty; [discriminate|]. rewrite <- R.
      destruct (scoring_effect original lower) as (_ & _ & R1). rewrite R1.
      destruct (beforeLength_effect original lower) as (_ & _ & R0). rewrite R0.
      repeat (apply Forall_app; split);
        try (apply sentenceIf_not_empty; vm_compute; discriminate).
      unfold exclamationSentence.
      destruct (2 <=? exclamations original); [|destruct (exclamations original =? 1)];
        repeat constructor; vm_compute; discriminate.
Qed.

End MoreDetectorFacts.

(** X5. Each of the ten pairs is the verdict of some headline, in every runtime. *)
Theorem every_verdict_occurs :
  Forall (fun v => exists headline,
            forall runtime : CaseConversion, verdict (detectHeadline headline) = v)
         verdicts.
Proof.
  unfold verdicts. repeat apply Forall_cons; [..|apply Forall_nil].
  - exists []. intros rt. vm_compute. reflexivity.
  - exists (lit "a b c d"). intros rt.
    rewrite detectHeadline_ascii by reflexivity. vm_compute. reflexivity.
  - exists (lit "they never tell us anything"). intros rt.
    rewrite detectHeadline_ascii by reflexivity. vm_compute. reflexivity.
  - exists (lit "a miracle for all of us"). intros rt.
    rewrite detectHeadline_ascii by reflexivity. vm_compute. reflexivity.
  - exists (lit "shocking news for all of us"). intros rt.
    rewrite detectHeadline_ascii by reflexivity. vm_compute. reflexivity.
  - exists (lit "Scientists confirm teleportation technology is ready for public use").
    intros rt. rewrite detectHeadline_ascii by reflexivity. vm_compute. reflexivity.
  - exists (lit "City council approves new budget for road repairs"). intros rt.
    rewrite detectHeadline_ascii by reflexivity. vm_compute. reflexivity.
  - exists (lit "study of a miracle for us"). intros rt.
    rewrite detectHeadline_ascii by reflexivity. vm_compute. reflexivity.
  - exists (lit "New study published in a journal shows climate change accelerating").
    intros rt. rewrite detectHeadline_ascii by reflexivity. vm_compute. reflexivity.
  - exists (lit "a new study of the city budget shows that road repairs cost more than last year").
    intros rt. rewrite detectHeadline_ascii by reflexivity. vm_compute. reflexivity.
Qed.

(* ================================================================== *)
(** ** The headline logger *)

Section Utf8Facts.

Import LogServer.

Lemma pairs_ind (P : jsstring -> Prop) :
  P [] -> (forall c : codeunit, P [c]) ->
  (forall (c d : codeunit) (rest : jsstring), P rest -> P (d :: rest) -> P (c :: d :: rest)) ->
  forall s : jsstring, P s.
Proof.
  intros H0 H1 H2 s.
  assert (H : P s /\ forall c, P (c :: s)).
  { induction s as [|d s [IH1 IH2]]; split; auto. }
  apply H.
Qed.

Lemma codePoints_cons_plain (c : codeunit) (rest : jsstring) :
  isHighSurrogate c = false -> isLowSurrogate c = false ->
  codePoints (c :: rest) = c :: codePoints rest.
Proof. intros Hh Hl. cbn [codePoints]. now rewrite Hh, Hl. Qed.

(** Cutting a string before a code unit that is not a low surrogate cuts
    no surrogate pair. *)
Lemma codePoints_app (a : jsstring) (c : codeunit) (b : jsstring) :
  isLowSurrogate c = false ->
  codePoints (a ++ c :: b) = codePoints a ++ codePoints (c :: b).
Proof.
  intros Hc. induction a as [|x|x d rest IH1 IH2] using pairs_ind.
  - reflexivity.
  - change ([x] ++ c :: b) with (x :: c :: b).
    change (codePoints (x :: c :: b))
      with (if isHighSurrogate x
            then (if isLowSurrogate c
                  then (65536 + (x - 55296) * 1024 + (c - 56320))%N :: codePoints b
                  else replacementCharacter :: codePoints (c :: b))
            else if isLowSurrogate x then replacementCharacter :: codePoints (c :: b)
            else x :: codePoints (c :: b)).
    change (codePoints [x])
      with (if isHighSurrogate x then [replacementCharacter]
            else if isLowSurrogate x then [replacementCharacter] else [x]).
    rewrite Hc. destruct (isHighSurrogate x); [|destruct (isLowSurrogate x)]; reflexivity.
  - change ((x :: d :: rest) ++ c :: b) with (x :: d :: (rest ++ c :: b)).
    change (codePoints (x :: d :: (rest ++ c :: b)))
      with (if isHighSurrogate x
            then (if isLowSurrogate d
                  then (65536 + (x - 55296) * 1024 + (d - 56320))%N
                       :: codePoints (rest ++ c :: b)
                  else replacementCharacter :: codePoints ((d :: rest) ++ c :: b))
            else if isLowSurrogate x
                 then replacementCharacter :: codePoints ((d :: rest) ++ c :: b)
            else x :: codePoints ((d :: rest) ++ c :: b)).
    change (codePoints (x :: d :: rest))
      with (if isHighSurrogate x
            then (if isLowSurrogate d
                  then (65536 + (x - 55296) * 1024 + (d - 56320))%N :: codePoints rest
                  else replacementCharacter :: codePoints (d :: rest))
            else if isLowSurrogate x then replacementCharacter :: codePoints (d :: rest)
            else x :: codePoints (d :: rest)).
    rewrite IH1, IH2.
    destruct (isHighSurrogate x); [destruct (isLowSurrogate d)|destruct (isLowSurrogate x)];
      reflexivity.
Qed.

Lemma utf8Encode_app (a : jsstring) (c : codeunit) (b : jsstring) :
  isLowSurrogate c = false ->
  utf8Encode (a ++ c :: b) = utf8Encode a ++ utf8Encode (c :: b).
Proof.
  intros Hc. unfold utf8Encode. now rewrite (codePoints_app a c b Hc), flat_map_app.
Qed.

Lemma utf8Encode_ascii_cons (c : codeunit) (rest : jsstring) :
  N.ltb c 128 = true -> utf8Encode (c :: rest) = c :: utf8Encode rest.
Proof.
  intros Hc. apply N.ltb_lt in Hc. unfold utf8Encode.
  rewrite codePoints_cons_plain.
  - cbn [flat_map]. unfold encodeCodePoint.
    destruct (N.ltb_spec c 128); [reflexivity | lia].
  - unfold isHighSurrogate. destruct (N.leb_spec 55296 c); [lia | reflexivity].
  - unfold isLowSurrogate. destruct (N.leb_spec 56320 c); [lia | reflexivity].
Qed.

(** No byte of an encoded code point is a quote, unless the code point is. *)
Lemma encodeCodePoint_quote_free (cp : N) :
  cp <> quote -> escapeQuotes (encodeCodePoint cp) = encodeCodePoint cp.
Proof.
  intros Hq. unfold encodeCodePoint, escapeQuotes, quote in *.
  destruct (N.ltb_spec cp 128).
  - cbn [flat_map]. destruct (N.eqb_spec cp 34); [contradiction | reflexivity].
  - assert (Hb : forall x, (N.eqb (128 + x) 34 = false)%N)
      by (intros x; apply N.eqb_neq; lia).
    assert (H1 : forall x, (N.eqb (192 + x) 34 = false)%N) by (intros x; apply N.eqb_neq; lia).
    assert (H2 : forall x, (N.eqb (224 + x) 34 = false)%N) by (intros x; apply N.eqb_neq; lia).
    assert (H3 : forall x, (N.eqb (240 + x) 34 = false)%N) by (intros x; apply N.eqb_neq; lia).
    destruct (N.ltb cp 2048); [|destruct (N.ltb cp 65536)];
      cbn [flat_map app]; rewrite ?Hb, ?H1, ?H2, ?H3; reflexivity.
Qed.

Lemma escapeQuotes_app (a b : list N) :
  escapeQuotes (a ++ b) = escapeQuotes a ++ escapeQuotes b.
Proof. apply flat_map_app. Qed.

Lemma encode_escaped_points (points : list N) :
  flat_map encodeCodePoint (escapeQuotes points) =
  escapeQuotes (flat_map encodeCodePoint points).
Proof.
  induction points as [|cp points IH]; [reflexivity|].
  change (escapeQuotes (cp :: points))
    with ((if N.eqb cp quote then [quote; quote] else [cp]) ++ escapeQuotes points).
  cbn [flat_map]. rewrite flat_map_app, escapeQuotes_app, IH. f_equal.
  destruct (N.eqb_spec cp quote) as [->|Hq].
  - reflexivity.
  - cbn [flat_map]. rewrite app_nil_r. symmetry. now apply encodeCodePoint_quote_free.
Qed.

Lemma escapeQuotes_cons (c : N) (s : list N) :
  escapeQuotes (c :: s) = (if N.eqb c quote then [quote; quote] else [c]) ++ escapeQuotes s.
Proof. reflexivity. Qed.

Lemma quote_is_plain :
  isHighSurrogate quote = false /\ isLowSurrogate quote = false.
Proof. split; reflexivity. Qed.

Lemma surrogate_is_no_quote (c : codeunit) :
  isHighSurrogate c || isLowSurrogate c = true -> N.eqb c quote = false.
Proof.
  unfold isHighSurrogate, isLowSurrogate, quote. intros H. apply N.eqb_neq. intros ->.
  discriminate H.
Qed.

Lemma codePoints_cons_pair (x d : codeunit) (rest : jsstring) :
  isHighSurrogate x = true -> isLowSurrogate d = true ->
  codePoints (x :: d :: rest) =
  (65536 + (x - 55296) * 1024 + (d - 56320))%N :: codePoints rest.
Proof. intros Hh Hd. cbn [codePoints]. now rewrite Hh, Hd. Qed.

Lemma codePoints_cons_lone_high (x d : codeunit) (rest : jsstring) :
  isHighSurrogate x = true -> isLowSurrogate d = false ->
  codePoints (x :: d :: rest) = replacementCharacter :: codePoints (d :: rest).
Proof. intros Hh Hd. cbn [codePoints]. now rewrite Hh, Hd. Qed.

Lemma codePoints_cons_lone_low (x : codeunit) (rest : jsstring) :
  isHighSurrogate x = false -> isLowSurrogate x = true ->
  codePoints (x :: rest) = replacementCharacter :: codePoints rest.
Proof. intros Hh Hl. cbn [codePoints]. now rewrite Hh, Hl. Qed.

(** Doubling the quotes of a string doubles the quotes of its code points:
    a quote is never part of a surrogate pair. *)
Lemma codePoints_escaped (s : jsstring) :
  codePoints (escapeQuotes s) = escapeQuotes (codePoints s).
Proof.
  induction s as [|x|x d rest IH1 IH2] using pairs_ind.
  - reflexivity.
  - rewrite escapeQuotes_cons.
    destruct (N.eqb_spec x quote) as [->|Hx].
    + reflexivity.
    + change ([x] ++ escapeQuotes []) with [x]. cbn [codePoints].
      destruct (isHighSurrogate x); [reflexivity|].
      destruct (isLowSurrogate x); [reflexivity|].
      rewrite escapeQuotes_cons. apply N.eqb_neq in Hx. now rewrite Hx.
  - rewrite (escapeQuotes_cons x).
    destruct (N.eqb x quote) eqn:Hx.
    + apply N.eqb_eq in Hx. subst x.
      change ([quote; quote] ++ escapeQuotes (d :: rest))
        with (quote :: quote :: escapeQuotes (d :: rest)).
      rewrite !(codePoints_cons_plain quote) by apply quote_is_plain.
      rewrite IH2, (escapeQuotes_cons quote). reflexivity.
    + change ([x] ++ escapeQuotes (d :: rest)) with (x :: escapeQuotes (d :: rest)).
      destruct (isHighSurrogate x) eqn:Hh.
      * destruct (isLowSurrogate d) eqn:Hd.
        -- assert (Hdq : N.eqb d quote = false)
             by (apply surrogate_is_no_quote; rewrite Hd; apply orb_true_r).
           rewrite (escapeQuotes_cons d), Hdq.
           change ([d] ++ escapeQuotes rest) with (d :: escapeQuotes rest).
           rewrite !codePoints_cons_pair by assumption.
           rewrite IH1, escapeQuotes_cons.
           assert (Hp : N.eqb (65536 + (x - 55296) * 1024 + (d - 56320)) quote = false)
             by (apply N.eqb_neq; unfold quote; lia).
           now rewrite Hp.
        -- rewrite (codePoints_cons_lone_high x d rest Hh Hd).
           rewrite (escapeQuotes_cons replacementCharacter), <- IH2.
           rewrite (escapeQuotes_cons d).
           destruct (N.eqb_spec d quote) as [->|Hdq].
           ++ change ([quote; quote] ++ escapeQuotes rest)
                with (quote :: quote :: escapeQuotes rest).
              now rewrite (codePoints_cons_lone_high x quote _ Hh (proj2 quote_is_plain)).
           ++ change ([d] ++ escapeQuotes rest) with (d :: escapeQuotes rest).
              now rewrite (codePoints_cons_lone_high x d _ Hh Hd).
      * destruct (isLowSurrogate x) eqn:Hl.
        -- rewrite !(codePoints_cons_lone_low x) by assumption.
           rewrite IH2, (escapeQuotes_cons replacementCharacter). reflexivity.
        -- rewrite !(codePoints_cons_plain x) by assumption.
           rewrite IH2, (escapeQuotes_cons x), Hx. reflexivity.
Qed.

Lemma utf8Encode_escaped (s : jsstring) :
  utf8Encode (escapeQuotes s) = escapeQuotes (utf8Encode s).
Proof. unfold utf8Encode. now rewrite codePoints_escaped, encode_escaped_points. Qed.

End Utf8Facts.

Section LoggerFacts.

Import LogServer.

Context {numbers : NumberRuntime}.

Lemma logHeadline_logs (timestamp : jsstring) (body : Body) (fs : FileSystem)
    (text : jsstring) :
  lineOf (timestamp, body) = Some text ->
  logHeadline timestamp body fs =
  ({| status := 200; json := Some (okJson true) |},
   Some (match fs with Some content => content | None => utf8Encode header end
         ++ utf8Encode text)).
Proof.
  unfold lineOf, logHeadline. cbn [fst snd].
  destruct (headline body) as [| |b|n|[|c h]|items|fields]; try discriminate.
  cbn [isTruthy typeofIsString isFalsy negb orb].
  destruct (String_ (nullish (label body) (JString []))); [|discriminate].
  destruct (Number_ (nullish (confidence body) (JNumber zero))); [|discriminate].
  intros E. injection E as <-. destruct fs; reflexivity.
Qed.

Lemma logHeadline_skips (timestamp : jsstring) (body : Body) (fs : FileSystem) :
  lineOf (timestamp, body) = None ->
  snd (logHeadline timestamp body fs) = fs /\
  status (fst (logHeadline timestamp body fs)) =
    match headline body with JString (_ :: _) => 500 | _ => 400 end /\
  (match headline body with JString (_ :: _) => False | _ => True end ->
   json (fst (logHeadline timestamp body fs)) = Some (errorJson (lit "headline is required"))).
Proof.
  unfold lineOf, logHeadline. cbn [fst snd].
  destruct (headline body) as [| |b|n|[|c h]|items|fields];
    cbn [isTruthy typeofIsString isFalsy negb orb];
    try (intros _; repeat split; destruct (negb _); reflexivity).
  destruct (String_ (nullish (label body) (JString [])));
    [|intros _; repeat split; contradiction].
  destruct (Number_ (nullish (confidence body) (JNumber zero)));
    [discriminate | intros _; repeat split; contradiction].
Qed.

(** X13. A request is answered 400 when its headline is not a non-empty
    string (no body, no headline, an empty or non-string headline), 500 when
    the headline is one but [String] of the label or [Number] of the
    confidence throws, and 200 otherwise.  Every request not answered 200
    leaves the log file as it was, absent if it was absent. *)
Theorem unlogged_requests_leave_log_untouched (timestamp : jsstring) (body : Body)
    (fs : FileSystem) :
  let headlineIsText :=
    match headline body with JString (_ :: _) => true | _ => false end in
  let converts :=
    match String_ (nullish (label body) (JString [])),
          Number_ (nullish (confidence body) (JNumber zero)) with
    | Some _, Some _ => true
    | _, _ => false
    end in
  status (fst (logHeadline timestamp body fs)) =
    (if headlineIsText then if converts then 200 else 500 else 400) /\
  (status (fst (logHeadline timestamp body fs)) <> 200 ->
     snd (logHeadline timestamp body fs) = fs) /\
  (headlineIsText = false ->
     json (fst (logHeadline timestamp body fs)) = Some (errorJson (lit "headline is required"))).
Proof.
  cbv zeta. unfold logHeadline.
  destruct (headline body) as [| |b|n|[|c h]|items|fields];
    cbn [isTruthy typeofIsString isFalsy negb orb];
    try (destruct (negb _));
    try (cbn [fst snd status json badRequest]; repeat split; intros; reflexivity).
  destruct (String_ (nullish (label body) (JString [])));
    [destruct (Number_ (nullish (confidence body) (JNumber zero)))|];
    cbn [fst snd status json serverError]; repeat split; intros;
    try reflexivity; try discriminate; exfalso; auto.
Qed.

Lemma serve_effect (requests : list (jsstring * Body)) :
  forall fs,
    snd (serve requests fs) =
    match logged requests with
    | [] => fs
    | (_ :: _) as lines =>
        Some (match fs with Some content => content | None => utf8Encode header end
              ++ List.concat (map utf8Encode lines))
    end.
Proof.
  induction requests as [|[timestamp body] rest IH]; intros fs; [reflexivity|].
  cbn [serve logged flat_map]. fold (logged rest).
  destruct (lineOf (timestamp, body)) as [text|] eqn:L.
  - rewrite (logHeadline_logs timestamp body fs text L).
    specialize (IH (Some (match fs with Some content => content
                                   | None => utf8Encode header end ++ utf8Encode text))).
    destruct (serve rest _) as [responses fs']. cbn [snd] in *. rewrite IH.
    cbn [app]. destruct (logged rest) as [|l lines].
    + cbn [map List.concat]. now rewrite app_nil_r.
    + cbn [map List.concat]. now rewrite <- app_assoc.
  - destruct (logHeadline_skips timestamp body fs L) as (Hfs & _).
    destruct (logHeadline timestamp body fs) as [response fs1]. cbn [snd] in Hfs. subst fs1.
    specialize (IH fs). destruct (serve rest fs) as [responses fs']. exact IH.
Qed.

(** X14. Starting without a log file, any run of requests leaves no file if
    none was logged, and otherwise the UTF-8 bytes of the header once,
    followed by the UTF-8 bytes of one line per logged request, in the order
    the requests were served.  A request is logged when its headline is a
    non-empty string and neither conversion throws. *)
Theorem log_is_header_then_lines (requests : list (jsstring * Body)) :
  snd (serve requests None) =
  match logged requests with
  | [] => None
  | (_ :: _) as lines => Some (utf8Encode header ++ List.concat (map utf8Encode lines))
  end.
Proof. apply serve_effect. Qed.

(** X15. The log only grows: whatever requests are served, the text the file
    held before is a prefix of the text it holds after. *)
Theorem log_only_grows (requests : list (jsstring * Body)) (text : bytes) :
  exists added, snd (serve requests (Some text)) = Some (text ++ added).
Proof.
  rewrite serve_effect.
  destruct (logged requests) as [|l lines].
  - exists []. now rewrite app_nil_r.
  - now exists (List.concat (map utf8Encode (l :: lines))).
Qed.

Lemma escapeQuotes_without_quotes (s : list N) :
  existsb (N.eqb quote) s = false -> escapeQuotes s = s.
Proof.
  induction s as [|c s IH]; [reflexivity|]. intros H.
  change (existsb (N.eqb quote) (c :: s))
    with (N.eqb quote c || existsb (N.eqb quote) s) in H.
  apply orb_false_iff in H as [Hc Hs]. rewrite N.eqb_sym in Hc.
  rewrite escapeQuotes_cons, Hc, (IH Hs). reflexivity.
Qed.

Lemma readQuotedBody_escaped (field : bytes) (d : N) (rest : bytes) :
  N.eqb d quote = false ->
  readQuotedBody (escapeQuotes field ++ quote :: d :: rest) = Some (field, d :: rest).
Proof.
  intros Hd. induction field as [|c field IH].
  - simpl. now rewrite Hd.
  - rewrite escapeQuotes_cons.
    destruct (N.eqb c quote) eqn:Hc.
    + apply N.eqb_eq in Hc. subst c.
      change (readQuotedBody (quote :: quote ::
                (escapeQuotes field ++ quote :: d :: rest)) = Some (quote :: field, d :: rest)).
      simpl. simpl in IH. now rewrite IH.
    + change (readQuotedBody (c :: (escapeQuotes field ++ quote :: d :: rest))
              = Some (c :: field, d :: rest)).
      simpl. rewrite Hc. simpl in IH. now rewrite IH.
Qed.

Lemma readField_escaped (field rest : bytes) :
  readField (quote :: escapeQuotes field ++ quote :: comma :: rest) = Some (field, rest).
Proof.
  unfold readField. change (N.eqb quote quote) with true. cbv iota.
  rewrite (readQuotedBody_escaped field comma rest); reflexivity.
Qed.

(** The bytes of a line, field by field. *)
Lemma utf8Encode_line (timestamp safeHeadline safeLabel : jsstring) (n : double) :
  utf8Encode (line timestamp safeHeadline safeLabel n) =
  quote :: utf8Encode timestamp ++ quote :: comma ::
    (quote :: utf8Encode safeHeadline ++ quote :: comma ::
       (quote :: utf8Encode safeLabel ++ quote :: comma ::
          utf8Encode (numberToString n ++ [newline]))).
Proof.
  unfold line.
  change ([quote] ++ timestamp ++ [quote; comma; quote] ++ safeHeadline
          ++ [quote; comma; quote] ++ safeLabel ++ [quote; comma]
          ++ numberToString n ++ [newline])
    with (quote :: (timestamp ++ quote :: comma :: quote :: (safeHeadline
          ++ quote :: comma :: quote :: (safeLabel ++ quote :: comma ::
             (numberToString n ++ [newline]))))).
  repeat first
    [ rewrite (utf8Encode_ascii_cons quote) by reflexivity
    | rewrite (utf8Encode_ascii_cons comma) by reflexivity
    | rewrite (utf8Encode_app _ quote) by reflexivity ].
  reflexivity.
Qed.

(** X16. What the logger put in the file for a request reads back field by
    field: the bytes between the quotes, with doubled quotes undone, are the
    UTF-8 bytes of the time stamp, of the headline and of the label text,
    quotes included, and what follows is the confidence text and a newline,
    provided the time stamp holds no quote (an ISO time stamp holds none).
    A surrogate without its partner is in the file as U+FFFD. *)
Theorem log_line_reads_back (timestamp h labelText text : jsstring) (n : double)
    (body : Body) :
  existsb (N.eqb quote) timestamp = false ->
  headline body = JString h ->
  String_ (nullish (label body) (JString [])) = Some labelText ->
  Number_ (nullish (confidence body) (JNumber zero)) = Some n ->
  lineOf (timestamp, body) = Some text ->
  readLine (utf8Encode text) =
  Some (utf8Encode timestamp, utf8Encode h, utf8Encode labelText,
        utf8Encode (numberToString n ++ [newline])).
Proof.
  intros Hts Hh Hlabel Hnumber Hline.
  unfold lineOf in Hline. cbn [fst snd] in Hline. rewrite Hh, Hlabel, Hnumber in Hline.
  destruct h as [|c h]; [discriminate|].
  assert (E : text = line timestamp (escapeQuotes (c :: h)) (escapeQuotes labelText) n)
    by congruence.
  subst text.
  rewrite utf8Encode_line, !utf8Encode_escaped.
  rewrite <- (escapeQuotes_without_quotes timestamp Hts) at 1.
  rewrite utf8Encode_escaped.
  unfold readLine. rewrite !readField_escaped. reflexivity.
Qed.

End LoggerFacts.

(* ================================================================== *)
(** ** The earlier revisions *)

Section RevisionFacts.

Lemma existsb_strictEq (x : jsstring) (l : list jsstring) :
  existsb (strictEq x) l = true <-> In x l.
Proof.
  rewrite existsb_exists. split.
  - intros [y [Hin E]]. apply strictEq_spec in E. now subst.
  - intros Hin. exists x. split; [exact Hin | now apply strictEq_spec].
Qed.

Lemma subTable_containsAny (a b : list jsstring) (text : jsstring) :
  subTable a b = true -> containsAny text a = true -> containsAny text b = true.
Proof.
  unfold subTable, containsAny. rewrite forallb_forall, !existsb_exists.
  intros Sub [p [Hin Hp]]. exists p. split; [|exact Hp].
  now apply existsb_strictEq, Sub.
Qed.

Lemma containsAny_app (text : jsstring) (a b : list jsstring) :
  containsAny text (a ++ b) = containsAny text a || containsAny text b.
Proof. apply existsb_app. Qed.

Lemma includes_prefix_of_item (text a b : jsstring) :
  includes text (a ++ b) = true -> includes text a = true.
Proof.
  rewrite !includes_spec. intros [pre [post E]].
  exists pre, (b ++ post). now rewrite E, <- app_assoc.
Qed.

(** The weighted tables hold the older ones and nothing but the added phrases. *)
Lemma impossibleClaims_extended :
  subTable FixedConfidence.impossibleClaims impossibleClaims = true /\
  subTable impossibleClaims (FixedConfidence.impossibleClaims ++ addedFakePhrases) = true.
Proof. vm_compute. split; reflexivity. Qed.

Lemma strongClickbait_extended :
  subTable FixedConfidence.strongClickbait strongClickbait = true /\
  subTable strongClickbait (FixedConfidence.strongClickbait ++ addedFakePhrases) = true.
Proof. vm_compute. split; reflexivity. Qed.

Lemma sensationalWords_extended :
  subTable FixedConfidence.sensationalWords sensationalWords = true /\
  subTable sensationalWords (FixedConfidence.sensationalWords ++ addedFakePhrases) = true.
Proof. vm_compute. split; reflexivity. Qed.

Lemma absoluteLanguage_extended :
  subTable FixedConfidence.absoluteLanguage absoluteLanguage = true /\
  subTable absoluteLanguage (FixedConfidence.absoluteLanguage ++ addedFakePhrases) = true.
Proof. vm_compute. split; reflexivity. Qed.

Lemma trustworthyCues_extended :
  subTable FixedConfidence.trustworthyCues trustworthyCues = true /\
  subTable trustworthyCues (FixedConfidence.trustworthyCues ++ addedTrustPhrases) = true.
Proof. vm_compute. split; reflexivity. Qed.

Context {runtime : CaseConversion}.

Lemma fixed_scoring_effect (original lower : jsstring) :
  let st := FixedConfidence.scoring original lower in
  fakeScore st =
    weightIf (containsAny lower FixedConfidence.impossibleClaims) 5
    + weightIf (containsAny lower FixedConfidence.strongClickbait) 4
    + weightIf (containsAny lower FixedConfidence.sensationalWords) 3
    + weightIf (containsAny lower FixedConfidence.absoluteLanguage) 2
    + exclamationWeight original
    + weightIf (shouting original) 3 /\
  trustScore st = weightIf (containsAny lower FixedConfidence.trustworthyCues) 4.
Proof.
  unfold FixedConfidence.scoring, exclamationWeight, shouting.
  repeat match goal with |- context [lit ?s] => generalize (lit s); intro end.
  destruct (containsAny lower FixedConfidence.impossibleClaims);
  destruct (containsAny lower FixedConfidence.strongClickbait);
  destruct (containsAny lower FixedConfidence.sensationalWords);
  destruct (containsAny lower FixedConfidence.absoluteLanguage);
  destruct (containsAny lower FixedConfidence.trustworthyCues);
  destruct (2 <=? exclamations original);
  destruct (exclamations original =? 1);
  destruct (2 <=? Z.of_nat (List.length (allCaps (splitWhitespace original))));
  split; reflexivity.
Qed.

(** X17. The weighted revision never scores lower than the fixed-confidence
    one, on either side: its tables hold every phrase of the older tables
    and its length analysis only adds. *)
Theorem weighted_scores_dominate_fixed (original lower : jsstring) :
  fakeScore (FixedConfidence.scoring original lower) <= fakeScore (scoring original lower) /\
  trustScore (FixedConfidence.scoring original lower) <= trustScore (scoring original lower).
Proof.
  destruct (fixed_scoring_effect original lower) as (F0 & T0).
  destruct (scoring_effect original lower) as (F & T & _).
  rewrite F0, T0, F, T. unfold structuralFake, structuralTrust.
  pose proof (weightIf_mono _ _ 5 ltac:(lia)
    (subTable_containsAny FixedConfidence.impossibleClaims impossibleClaims lower (proj1 impossibleClaims_extended))).
  pose proof (weightIf_mono _ _ 4 ltac:(lia)
    (subTable_containsAny FixedConfidence.strongClickbait strongClickbait lower (proj1 strongClickbait_extended))).
  pose proof (weightIf_mono _ _ 3 ltac:(lia)
    (subTable_containsAny FixedConfidence.sensationalWords sensationalWords lower (proj1 sensationalWords_extended))).
  pose proof (weightIf_mono _ _ 2 ltac:(lia)
    (subTable_containsAny FixedConfidence.absoluteLanguage absoluteLanguage lower (proj1 absoluteLanguage_extended))).
  pose proof (weightIf_mono _ _ 4 ltac:(lia)
    (subTable_containsAny FixedConfidence.trustworthyCues trustworthyCues lower (proj1 trustworthyCues_extended))).
  pose proof (weightIf_nonneg (wordCount original <? 5) 1).
  pose proof (weightIf_nonneg (14 <? wordCount original) 1).
  lia.
Qed.

Lemma same_firing (older newer added : list jsstring) (text : jsstring) :
  subTable older newer = true ->
  subTable newer (older ++ added) = true ->
  containsAny text added = false ->
  containsAny text newer = containsAny text older.
Proof.
  intros Old New Hadd.
  destruct (containsAny text older) eqn:Eo.
  - now apply (subTable_containsAny older newer).
  - destruct (containsAny text newer) eqn:En; [|reflexivity].
    apply (subTable_containsAny _ _ text New) in En.
    rewrite containsAny_app, Eo, Hadd in En. discriminate.
Qed.

Lemma fixed_label_fake (headline : jsstring) :
  trim headline <> [] ->
  let st := FixedConfidence.scoring (trim headline) (toLowerCase (trim headline)) in
  label (FixedConfidence.detectHeadline headline) = fake <-> 0 < fakeScore st - trustScore st.
Proof.
  intros H st. unfold FixedConfidence.detectHeadline.
  destruct (trim headline) as [|c r] eqn:E; [congruence|]. cbn [isFalsy]. fold st.
  unfold FixedConfidence.decide.
  destruct (Z.leb_spec 3 (fakeScore st - trustScore st)); cbn [label];
    [split; [lia | reflexivity]|].
  destruct (Z.leb_spec (fakeScore st - trustScore st) (-2)); cbn [label];
    [split; [discriminate | lia]|].
  destruct (Z.ltb_spec 0 (fakeScore st - trustScore st)); cbn [label];
    split; auto; try discriminate; lia.
Qed.

(** X18. On a headline of five to fourteen words that holds none of the phrases
    the weighted revision added, both revisions compute the same two scores
    and give the same label. *)
Theorem weighted_agrees_with_fixed (headline : jsstring) :
  5 <= wordCount (trim headline) <= 14 ->
  containsAny (toLowerCase (trim headline)) addedFakePhrases = false ->
  containsAny (toLowerCase (trim headline)) addedTrustPhrases = false ->
  let older := FixedConfidence.scoring (trim headline) (toLowerCase (trim headline)) in
  fakeScore (scoresOf headline) = fakeScore older /\
  trustScore (scoresOf headline) = trustScore older /\
  label (detectHeadline headline) = label (FixedConfidence.detectHeadline headline).
Proof.
  intros Hw Hf Ht older.
  assert (N : trim headline <> []).
  { intros E. rewrite E in Hw. vm_compute in Hw. destruct Hw as [Hw _]. now apply Hw. }
  set (lower := toLowerCase (trim headline)) in *.
  destruct (fixed_scoring_effect (trim headline) lower) as (F0 & T0).
  destruct (scoring_effect (trim headline) lower) as (F & T & _).
  assert (Scores : fakeScore (scoresOf headline) = fakeScore older /\
                   trustScore (scoresOf headline) = trustScore older).
  { unfold scoresOf, older. fold lower. rewrite F, T, F0, T0.
    rewrite (same_firing FixedConfidence.impossibleClaims impossibleClaims
               addedFakePhrases lower (proj1 impossibleClaims_extended) (proj2 impossibleClaims_extended) Hf).
    rewrite (same_firing FixedConfidence.strongClickbait strongClickbait
               addedFakePhrases lower (proj1 strongClickbait_extended) (proj2 strongClickbait_extended) Hf).
    rewrite (same_firing FixedConfidence.sensationalWords sensationalWords
               addedFakePhrases lower (proj1 sensationalWords_extended) (proj2 sensationalWords_extended) Hf).
    rewrite (same_firing FixedConfidence.absoluteLanguage absoluteLanguage
               addedFakePhrases lower (proj1 absoluteLanguage_extended) (proj2 absoluteLanguage_extended) Hf).
    rewrite (same_firing FixedConfidence.trustworthyCues trustworthyCues
               addedTrustPhrases lower (proj1 trustworthyCues_extended) (proj2 trustworthyCues_extended) Ht).
    unfold structuralFake, structuralTrust.
    destruct (Z.ltb_spec (wordCount (trim headline)) 5); [lia|].
    destruct (Z.ltb_spec 14 (wordCount (trim headline))); [lia|].
    change (weightIf false 1) with 0. split; lia. }
  destruct Scores as [Sf St]. repeat split; auto.
  pose proof (fixed_label_fake headline N) as Lo. cbv zeta in Lo. fold lower in Lo.
  fold older in Lo.
  rewrite (detectHeadline_scored headline N). fold lower.
  pose proof (result_label_fake (scoring (trim headline) lower)) as Ln.
  unfold finalScore in Ln. fold lower in Sf, St. unfold scoresOf in Sf, St. fold lower in Sf, St.
  rewrite Sf, St in Ln.
  destruct (label (result (scoring (trim headline) lower)));
    destruct (label (FixedConfidence.detectHeadline headline)); try reflexivity.
  - assert (fake = fake) as X by reflexivity. apply Ln in X. apply Lo in X. discriminate.
  - assert (fake = fake) as X by reflexivity. apply Lo in X. apply Ln in X. discriminate.
Qed.

(** X19. In the tuned revision a headline on the list of known fakes, in
    whatever ASCII letter case and with white space around it, is labelled
    [fake] with confidence 92 and the explanation of the list. *)
Theorem tuned_known_fakes_are_fake (headline : jsstring) :
  isAsciiString headline = true ->
  In (map asciiLower (trim headline)) Tuned.knownFakeExact ->
  Tuned.detectHeadline headline =
  {| label := fake; confidence := 92;
     explanation := lit "This headline matches a known list of highly implausible or sensational fake claims." |}.
Proof.
  intros A Hin. unfold Tuned.detectHeadline.
  rewrite (toLowerCase_ascii _ (isAsciiString_trim _ A)).
  destruct (trim headline) as [|c r] eqn:E.
  - exfalso. apply existsb_strictEq in Hin. vm_compute in Hin. discriminate.
  - cbn [isFalsy]. apply existsb_strictEq in Hin. now rewrite Hin.
Qed.

(** X20. The tuned revision's test for four exclamation marks never decides:
    the test for three fires whenever it does. *)
Theorem tuned_four_marks_test_is_idle (original lower : jsstring) :
  Tuned.fakeTriggers original lower =
  containsAny lower Tuned.impossiblePatterns
  || containsAny lower Tuned.clickbaitPatterns
  || containsAny lower Tuned.conspiracyPatterns
  || includes lower (lit "!!!")
  || Tuned.isExcessivelyCapitalized original.
Proof.
  unfold Tuned.fakeTriggers.
  pose proof (includes_prefix_of_item lower (lit "!!!") (lit "!")) as H.
  change (lit "!!!" ++ lit "!") with (lit "!!!!") in H.
  destruct (includes lower (lit "!!!!")).
  - rewrite (H eq_refl). now rewrite !orb_true_r.
  - now rewrite orb_false_r.
Qed.

End RevisionFacts.

(* ================================================================== *)
(** ** These theorems at work on concrete input *)

Lemma surrounding_whitespace_ignored_witness :
  let before := [9; 32]%N in
  let after := [32; 10]%N in
  forallb isWhiteSpace before = true /\ forallb isWhiteSpace after = true /\
  detectHeadline (runtime := asciiCase) (before ++ lit "Shocking miracle cure!" ++ after)
  = detectHeadline (runtime := asciiCase) (lit "Shocking miracle cure!").
Proof.
  intros before after. split; [reflexivity|]. split; [reflexivity|].
  apply (@surrounding_whitespace_ignored asciiCase before _ after); reflexivity.
Defined.

Lemma words_of_trimmed_headline_witness :
  let h := lit "  road   repairs " in
  trim h <> [] /\
  1 <= Z.of_nat (List.length (splitWhitespace (trim h))) /\
  forall w, In w (splitWhitespace (trim h)) -> w <> [] /\ blackOnly w = true.
Proof.
  intros h.
  assert (N : trim h <> []) by (vm_compute; discriminate).
  split; [exact N|]. apply (words_of_trimmed_headline h N).
Defined.

Lemma label_follows_score_sign_witness :
  let h := lit "study of a miracle for us" in
  trim h <> [] /\
  (label (detectHeadline (runtime := asciiCase) h) = trustworthy <->
   fakeScore (scoresOf (runtime := asciiCase) h)
     <= trustScore (scoresOf (runtime := asciiCase) h)).
Proof.
  intros h.
  assert (N : trim h <> []) by (vm_compute; discriminate).
  split; [exact N|]. apply (@label_follows_score_sign asciiCase h N).
Defined.

Lemma short_headline_without_cue_is_fake_witness :
  let h := lit "Hello world" in
  trim h <> [] /\ wordCount (trim h) < 5 /\
  label (detectHeadline (runtime := asciiCase) h) = fake.
Proof.
  intros h.
  assert (N : trim h <> []) by (vm_compute; discriminate).
  assert (S : wordCount (trim h) < 5) by (vm_compute; reflexivity).
  split; [exact N|]. split; [exact S|].
  apply (@short_headline_without_cue_is_fake asciiCase h N S). vm_compute. reflexivity.
Defined.

Lemma ascii_word_counts_as_caps_witness :
  isAsciiString (lit "2024!") = true /\
  In (lit "2024!") (allCaps (runtime := asciiCase) [lit "news"; lit "2024!"]).
Proof.
  split; [reflexivity|].
  apply (@ascii_word_counts_as_caps asciiCase [lit "news"; lit "2024!"] (lit "2024!"));
    [reflexivity|].
  split; [right; left; reflexivity|]. split; [vm_compute; discriminate | reflexivity].
Defined.

Lemma phrase_fires_in_any_ascii_case_witness :
  let h := lit " New TelePortational device " in
  isAsciiString h = true /\
  containsAny (toLowerCase (CaseConversion := asciiCase) (trim h)) impossibleClaims = true.
Proof.
  intros h. split; [reflexivity|].
  apply (@phrase_fires_in_any_ascii_case asciiCase h
           (lit "New ") (lit "TelePortation") (lit "al device")).
  - reflexivity.
  - reflexivity.
  - vm_compute. tauto.
Defined.

Lemma weighted_agrees_with_fixed_witness :
  let h := lit "City council approves new budget for road repairs" in
  5 <= wordCount (trim h) <= 14 /\
  label (detectHeadline (runtime := asciiCase) h)
    = label (FixedConfidence.detectHeadline (runtime := asciiCase) h).
Proof.
  intros h.
  assert (W : 5 <= wordCount (trim h) <= 14) by (vm_compute; split; discriminate).
  split; [exact W|].
  apply (@weighted_agrees_with_fixed asciiCase h W); vm_compute; reflexivity.
Defined.

Lemma tuned_known_fakes_are_fake_witness :
  let h := lit "  Scientists Confirm TELEPORTATION Technology Is Ready For Public Use " in
  isAsciiString h = true /\
  label (Tuned.detectHeadline (runtime := asciiCase) h) = fake /\
  confidence (Tuned.detectHeadline (runtime := asciiCase) h) = 92.
Proof.
  intros h. split; [reflexivity|].
  rewrite (@tuned_known_fakes_are_fake asciiCase h).
  - split; reflexivity.
  - reflexivity.
  - apply existsb_strictEq. vm_compute. reflexivity.
Defined.

Lemma log_line_reads_back_witness :
  let timestamp := lit "2026-01-01T00:00:00.000Z" in
  let h := lit "He said " ++ [LogServer.quote; 233; 55357; 56832; 56832; LogServer.quote]%N in
  let body :=
    {| LogServer.headline := LogServer.JString (numbers := LogServer.exampleNumbers) h;
       LogServer.label := LogServer.JString (lit "fake");
       LogServer.confidence := LogServer.JNumber (numbers := LogServer.exampleNumbers) (Some 95) |} in
  exists text,
    LogServer.lineOf (timestamp, body) = Some text /\
    LogServer.readLine (LogServer.utf8Encode text)
    = Some (LogServer.utf8Encode timestamp,
            lit "He said " ++ [34; 195; 169; 240; 159; 152; 128; 239; 191; 189; 34]%N,
            lit "fake", lit "95" ++ [LogServer.newline]).
Proof.
  intros timestamp h body. eexists. split; [reflexivity|].
  apply (@log_line_reads_back LogServer.exampleNumbers timestamp h (lit "fake") _ (Some 95) body);
    reflexivity.
Defined.

(* ================================================================== *)
(** ** Strong verdicts *)

Section StrongVerdicts.

Context {runtime : CaseConversion}.

(** X11. An impossible claim in a headline that names no trustworthy cue
    settles the verdict: [fake] with confidence 95, whatever the length. *)
Theorem impossible_claim_without_cue_is_fake (headline : jsstring) :
  trim headline <> [] ->
  containsAny (toLowerCase (trim headline)) impossibleClaims = true ->
  containsAny (toLowerCase (trim headline)) trustworthyCues = false ->
  label (detectHeadline headline) = fake /\ confidence (detectHeadline headline) = 95.
Proof.
  intros N Himp Hcue. rewrite (detectHeadline_scored headline N).
  set (st := scoring (trim headline) (toLowerCase (trim headline))).
  destruct (scoring_effect (trim headline) (toLowerCase (trim headline))) as (F & T & _).
  fold st in F, T. rewrite Himp in F. rewrite Hcue in T.
  assert (Hf : 5 <= fakeScore st).
  { rewrite F. unfold structuralFake.
    pose proof (exclamationWeight_nonneg (trim headline)).
    pose proof (weightIf_nonneg (containsAny (toLowerCase (trim headline)) strongClickbait) 4).
    pose proof (weightIf_nonneg (containsAny (toLowerCase (trim headline)) sensationalWords) 3).
    pose proof (weightIf_nonneg (containsAny (toLowerCase (trim headline)) absoluteLanguage) 2).
    pose proof (weightIf_nonneg (shouting (trim headline)) 3).
    pose proof (weightIf_nonneg (wordCount (trim headline) <? 5) 1).
    change (weightIf true 5) with 5. lia. }
  assert (Ht : trustScore st <= 1).
  { rewrite T. unfold structuralTrust, weightIf.
    destruct (14 <? wordCount (trim headline)); lia. }
  destruct (result_fields st) as (L & C & _). rewrite L, C, Math_round_integer.
  unfold decide, finalScore, Math_min.
  destruct (Z.leb_spec 3 (fakeScore st - trustScore st)); [|lia].
  cbn [fst snd]. split; [reflexivity | lia].
Qed.

(** X12. A trustworthy cue in a headline that sets off no fake-leaning rule
    gives [trustworthy] with confidence 88, or 90 when the headline has more
    than fourteen words. *)
Theorem cue_without_fake_signal_is_trustworthy (headline : jsstring) :
  trim headline <> [] ->
  containsAny (toLowerCase (trim headline)) trustworthyCues = true ->
  fakeScore (scoresOf headline) = 0 ->
  label (detectHeadline headline) = trustworthy /\
  confidence (detectHeadline headline) = (if 14 <? wordCount (trim headline) then 90 else 88).
Proof.
  intros N Hcue Hf. rewrite (detectHeadline_scored headline N).
  unfold scoresOf in Hf.
  set (st := scoring (trim headline) (toLowerCase (trim headline))) in *.
  destruct (scoring_effect (trim headline) (toLowerCase (trim headline))) as (_ & T & _).
  fold st in T. rewrite Hcue in T. unfold structuralTrust in T.
  change (weightIf true 4) with 4 in T.
  destruct (result_fields st) as (L & C & _). rewrite L, C, Math_round_integer.
  unfold decide, finalScore, Math_min.
  destruct (14 <? wordCount (trim headline)); unfold weightIf in T.
  - destruct (Z.leb_spec 3 (fakeScore st - trustScore st)); [lia|].
    destruct (Z.leb_spec (fakeScore st - trustScore st) (-2)); [|lia].
    cbn [fst snd]. split; [reflexivity | lia].
  - destruct (Z.leb_spec 3 (fakeScore st - trustScore st)); [lia|].
    destruct (Z.leb_spec (fakeScore st - trustScore st) (-2)); [|lia].
    cbn [fst snd]. split; [reflexivity | lia].
Qed.

End StrongVerdicts.

Lemma impossible_claim_without_cue_is_fake_witness :
  let h := lit "Local man claims he is immortal and proud of it in a very long speech given to the town last week" in
  trim h <> [] /\
  label (detectHeadline (runtime := asciiCase) h) = fake /\
  confidence (detectHeadline (runtime := asciiCase) h) = 95.
Proof.
  intros h.
  assert (N : trim h <> []) by (vm_compute; discriminate).
  split; [exact N|].
  apply (@impossible_claim_without_cue_is_fake asciiCase h N); vm_compute; reflexivity.
Defined.

Lemma cue_without_fake_signal_is_trustworthy_witness :
  let h := lit "a new study of the city budget shows that road repairs cost more than last year" in
  trim h <> [] /\
  label (detectHeadline (runtime := asciiCase) h) = trustworthy /\
  confidence (detectHeadline (runtime := asciiCase) h) = 90.
Proof.
  intros h.
  assert (N : trim h <> []) by (vm_compute; discriminate).
  split; [exact N|].
  apply (@cue_without_fake_signal_is_trustworthy asciiCase h N); vm_compute; reflexivity.
Defined.
